(** * Air-quality analysis script: a shallow embedding and its properties

    The repository is one linear pandas script (and the same script as a
    notebook): load a table, impute and clamp six numeric columns, aggregate
    per station / day / hour, classify PM2.5 readings.

    Modelling decisions, in one place:
    - a Python [float] / a [float64] cell is an IEEE-754 binary64 value,
      taken from the standard library's executable specification
      ([spec_float] with [prec = 53] and [emax = 1024]); a missing cell is
      NaN, as in pandas;
    - a [DataFrame] is column oriented: the station column, the (already
      parsed) timestamp column and a finite map from column name to a
      [float64] column;
    - [df[col]] on an absent column raises [KeyError]; [idxmax] / [idxmin]
      on an empty series raise [ValueError]; both are values of [result];
      on a series with only missing values they return the missing label
      (NaN, or NaT whose [.hour] is NaN), modelled as [None];
    - [df[col].fillna(v, inplace=True)] writes through to [df] (the pandas
      behaviour the script was written for, without copy-on-write);
    - [groupby(...).mean()] and [resample("H").mean()] run pandas' grouped
      mean, a compensated (Kahan) sum over the rows of the group (in row
      order; for [resample], in timestamp order), divided by the number
      of present rows; [corr()] runs pandas' one-pass (Welford) update for
      every pair of columns. Every floating-point operation is rounded on
      its own. *)

From Stdlib Require Import ZArith Lia Bool.
From Stdlib Require Import Floats.SpecFloat.
From stdpp Require Import base option list sorting gmap strings.

Local Open Scope Z_scope.

(** ** Binary64 values *)

Module F64.

Definition prec : Z := 53.
Definition emax : Z := 1024.

Definition float : Type := spec_float.

Definition nan : float := S754_nan.
Definition zero : float := S754_zero false.
Definition pinf : float := S754_infinity false.
Definition ninf : float := S754_infinity true.

Definition add : float -> float -> float := SFadd prec emax.
Definition sub : float -> float -> float := SFsub prec emax.
Definition div : float -> float -> float := SFdiv prec emax.

(** Python's [a < b], [a <= b], [a > b] on floats: false as soon as one
    side is NaN. *)
Definition ltb (a b : float) : bool := SFltb a b.
Definition leb (a b : float) : bool := SFleb a b.
Definition gtb (a b : float) : bool := ltb b a.


Definition is_nan (x : float) : bool :=
  match x with S754_nan => true | _ => false end.

Definition is_finite (x : float) : bool :=
  match x with S754_zero _ | S754_finite _ _ _ => true | _ => false end.

(** A well-formed binary64 value: the mantissa is canonical for its
    exponent and the exponent is in range. *)
Definition valid (x : float) : bool := valid_binary prec emax x.

(** An integer as a float (the conversion of a Python [int] operand, or of
    a row count): correctly rounded. *)
Definition of_Z (n : Z) : float := binary_normalize prec emax n 0 false.


(** The decimal literal [n / 10^k], correctly rounded as the Python parser
    does: [n] and [10^k] are exact here, so their rounded quotient is the
    nearest double. *)
Definition decimal (n : Z) (k : nat) : float :=
  div (of_Z n) (of_Z (10 ^ Z.of_nat k)).

(** *** The order behind the comparisons

    [SFcompare] is a lexicographic comparison on (class, exponent,
    mantissa); [rank] makes that explicit so that order facts reduce to
    linear arithmetic. *)

Definition rank (x : float) : Z * Z * Z :=
  match x with
  | S754_nan => (0, 0, 0)
  | S754_zero _ => (0, 0, 0)
  | S754_infinity true => (-2, 0, 0)
  | S754_infinity false => (2, 0, 0)
  | S754_finite true m e => (-1, - e, Z.neg m)
  | S754_finite false m e => (1, e, Z.pos m)
  end.

Definition lex_lt (s t : Z * Z * Z) : Prop :=
  s.1.1 < t.1.1 \/
  (s.1.1 = t.1.1 /\ (s.1.2 < t.1.2 \/ (s.1.2 = t.1.2 /\ s.2 < t.2))).

Definition lex_le (s t : Z * Z * Z) : Prop :=
  s.1.1 < t.1.1 \/
  (s.1.1 = t.1.1 /\ (s.1.2 < t.1.2 \/ (s.1.2 = t.1.2 /\ s.2 <= t.2))).

(** [x] is a number (not NaN) of sign [s]. *)
Definition signed (s : bool) (x : float) : Prop :=
  x = S754_zero s \/ x = S754_infinity s \/ exists m e, x = S754_finite s m e.

End F64.

Import F64.

(** ** Exceptions

    The two exceptions the script can raise on a table of [float64]
    columns. *)

Inductive exn : Type :=
  | KeyError (key : string)
  | ValueError (msg : string).

Inductive result (A : Type) : Type :=
  | Ok (a : A)
  | Raise (e : exn).
Arguments Ok {A} a.
Arguments Raise {A} e.

#[global] Instance result_ret : MRet result := fun A a => Ok a.
#[global] Instance result_bind : MBind result := fun A B f m =>
  match m with Ok a => f a | Raise e => Raise e end.

(** A [for] loop whose body may raise: the state is threaded through the
    iterations, the first exception ends the loop. *)
Fixpoint for_each {A S : Type} (body : S -> A -> result S) (xs : list A) (s : S)
  : result S :=
  match xs with
  | [] => Ok s
  | x :: xs' => s' ← body s x; for_each body xs' s'
  end.

(** ** Python builtins *)

Module Py.

(** [max(a, b)]: the first argument is kept unless the second compares
    strictly greater; with a NaN second argument the comparison is false.
    The script calls [max(0, x)]: the [int] 0 it may return is the cell
    [0.0] of the resulting column. *)
Definition max (a b : float) : float := if gtb b a then b else a.

End Py.

(** ** The pandas operations the script calls *)

Module Pd.

(** A column of [float64] cells and a series: values with their index
    labels, in index order. *)
Abbreviation column := (list float).
Abbreviation series K := (list (K * float)).

Definition notna (x : float) : Prop := is_nan x = false.
#[global] Instance notna_dec (x : float) : Decision (notna x) :=
  decide (is_nan x = false).

(** [s.dropna()] *)
Definition dropna (s : column) : column := filter notna s.

(** [s.fillna(value)]: the missing cells, and only they, become [value]. *)
Definition fillna (s : column) (value : float) : column :=
  (fun x => if is_nan x then value else x) <$> s.

(** [s.apply(f)] *)
Definition apply {A : Type} (s : column) (f : float -> A) : list A := f <$> s.

Definition fle (a b : float) : Prop := leb a b = true.
#[global] Instance fle_dec : RelDecision fle := fun a b => decide (leb a b = true).

(** [s.median()] with [skipna=True]: the missing cells are dropped, the
    rest is sorted; the middle element, or the mean of the two middle
    elements; NaN when nothing is left. *)
Definition median (s : column) : float :=
  let ys := merge_sort fle (dropna s) in
  let n := length ys in
  match n with
  | O => nan
  | _ =>
    if Nat.odd n then default nan (ys !! (n / 2)%nat)
    else div (add (default nan (ys !! (n / 2 - 1)%nat))
                  (default nan (ys !! (n / 2)%nat)))
             (of_Z 2)
  end.

(** The mean of one group, as [groupby(...).mean()] and
    [resample(...).mean()] compute it (pandas' [group_mean]): the cells of
    the group are visited in the order given, a missing cell is skipped,
    and the running sum is compensated,
    [y = val - compensation; t = sumx + y;
     compensation = t - sumx - y; sumx = t],
    where a compensation that comes out NaN (after an infinite value) is
    reset to 0. The result is [sumx / nobs], or NaN for a group without a
    present cell. *)
Record kahan : Type := mkKahan {
  nobs : Z;
  sumx : float;
  compensation : float
}.

Definition kahan_init : kahan := mkKahan 0 zero zero.

Definition kahan_step (a : kahan) (val : float) : kahan :=
  if is_nan val then a
  else
    let y := sub val (compensation a) in
    let t := add (sumx a) y in
    let c := sub (sub t (sumx a)) y in
    mkKahan (nobs a + 1) t (if is_nan c then zero else c).

Definition mean (s : column) : float :=
  let a := foldl kahan_step kahan_init s in
  if nobs a =? 0 then nan else div (sumx a) (of_Z (nobs a)).

(** [xs[mask]]: the rows where the boolean mask holds. *)
Fixpoint select {A : Type} (mask : list bool) (xs : list A) : list A :=
  match mask, xs with
  | b :: mask', x :: xs' => if b then x :: select mask' xs' else select mask' xs'
  | _, _ => []
  end.

(** Group keys are compared to keep the groups in key order
    ([groupby(..., sort=True)], the default). *)
Class KeyCmp (K : Type) : Type := key_cmp : K -> K -> comparison.

#[global] Instance string_cmp : KeyCmp string := String.compare.
#[global] Instance Z_cmp : KeyCmp Z := Z.compare.

Section GroupBy.
Context {K : Type} `{KeyCmp K}.

Fixpoint group_insert (k : K) (v : float) (gs : list (K * column))
  : list (K * column) :=
  match gs with
  | [] => [(k, [v])]
  | (k', vs) :: gs' =>
    match key_cmp k k' with
    | Lt => (k, [v]) :: gs
    | Eq => (k', vs ++ [v]) :: gs'
    | Gt => (k', vs) :: group_insert k v gs'
    end
  end.

Definition groups (keys : list K) (vals : column) : list (K * column) :=
  foldl (fun gs kv => group_insert kv.1 kv.2 gs) [] (zip keys vals).

(** [values.groupby(keys).mean()] *)
Definition groupby_mean (keys : list K) (vals : column) : series K :=
  (fun g => (g.1, mean g.2)) <$> groups keys vals.
End GroupBy.

Section Extrema.
Context {K : Type}.

Definition all_na (s : series K) : bool := forallb (fun kv => is_nan kv.2) s.

Definition fill_ninf (x : float) : float := if is_nan x then ninf else x.
Definition fill_pinf (x : float) : float := if is_nan x then pinf else x.

(** [argmax] / [argmin] of an array: the running extremum is replaced
    only by a strictly better element, so the first one wins a tie. *)
Fixpoint argmax_from (best : K * float) (s : series K) : K * float :=
  match s with
  | [] => best
  | kv :: s' => argmax_from (if gtb kv.2 best.2 then kv else best) s'
  end.

Fixpoint argmin_from (best : K * float) (s : series K) : K * float :=
  match s with
  | [] => best
  | kv :: s' => argmin_from (if ltb kv.2 best.2 then kv else best) s'
  end.

(** [maximum.reduce] / [minimum.reduce]: [a >= b ? a : b] and
    [a <= b ? a : b], folded from the left. *)
Definition maximum (a b : float) : float := if leb b a then a else b.
Definition minimum (a b : float) : float := if leb a b then a else b.

Definition fill_with (f : float -> float) (s : series K) : series K :=
  (fun kv => (kv.1, f kv.2)) <$> s.

(** [s.idxmax()] with [skipna=True]: NaN counts as -inf; an empty series
    raises; a series with only NaN gives the label NaN ([None]). *)
Definition idxmax (s : series K) : result (option K) :=
  match fill_with fill_ninf s with
  | [] => Raise (ValueError "attempt to get argmax of an empty sequence")
  | kv :: s' => if all_na s then Ok None else Ok (Some (argmax_from kv s').1)
  end.

Definition idxmin (s : series K) : result (option K) :=
  match fill_with fill_pinf s with
  | [] => Raise (ValueError "attempt to get argmin of an empty sequence")
  | kv :: s' => if all_na s then Ok None else Ok (Some (argmin_from kv s').1)
  end.

(** [s.max()] / [s.min()] with [skipna=True]: NaN for an empty or
    all-NaN series. *)
Definition max (s : series K) : float :=
  match (fill_with fill_ninf s).*2 with
  | [] => nan
  | v :: vs => if all_na s then nan else foldl maximum v vs
  end.

Definition min (s : series K) : float :=
  match (fill_with fill_pinf s).*2 with
  | [] => nan
  | v :: vs => if all_na s then nan else foldl minimum v vs
  end.

(** [s[s > threshold]] *)
Definition filter_gt (s : series K) (threshold : float) : series K :=
  filter (fun kv => gtb kv.2 threshold = true) s.
End Extrema.

(** Timestamps are seconds since the epoch; [.dt.date] is the day number,
    [.hour] the hour of the day. *)
Definition date (t : Z) : Z := t / 86400.
Definition hour (t : Z) : Z := (t mod 86400) / 3600.
Definition hour_bin (t : Z) : Z := t / 3600.

(** [resample] takes the rows in timestamp order: a table whose
    timestamps do not increase is reordered by a stable sort, so rows
    with the same timestamp keep their order. *)
Fixpoint insert_by_time (r : Z * float) (rs : list (Z * float))
  : list (Z * float) :=
  match rs with
  | [] => [r]
  | r' :: rs' => if r.1 <? r'.1 then r :: rs else r' :: insert_by_time r rs'
  end.

Definition sort_by_time (rs : list (Z * float)) : list (Z * float) :=
  foldl (fun acc r => insert_by_time r acc) [] rs.

(** [values.resample("H").mean()] for values indexed by the timestamps
    [ts] ([set_index("Timestamp")]): one bin per hour from the hour of the
    earliest timestamp to the hour of the latest, labelled by the start of
    the hour; the mean of a bin is the grouped mean of its rows in
    timestamp order; a bin without rows has mean NaN; no rows, no bins. *)
Definition resample_H_mean (ts : list Z) (vals : column) : series Z :=
  match hour_bin <$> ts with
  | [] => []
  | h :: hs =>
    let lo := foldl Z.min h hs in
    let hi := foldl Z.max h hs in
    let rows := sort_by_time (zip ts vals) in
    (fun b => (b * 3600,
               mean (select ((fun t => bool_decide (hour_bin t = b)) <$> rows.*1)
                            rows.*2)))
      <$> seqZ lo (hi - lo + 1)
  end.







End Pd.

(** ** The table and the script *)

Record DataFrame : Type := mkDataFrame {
  Station_ID : list string;
  Timestamp : list Z;
  numeric : gmap string Pd.column
}.

(** [df[col]] for a numeric column. *)
Definition getitem (df : DataFrame) (col : string) : result Pd.column :=
  match numeric df !! col with
  | Some s => Ok s
  | None => Raise (KeyError col)
  end.

(** [df[col] = s], and the write-through of an in-place update of
    [df[col]]. *)
Definition setitem (df : DataFrame) (col : string) (s : Pd.column) : DataFrame :=
  {| Station_ID := Station_ID df;
     Timestamp := Timestamp df;
     numeric := <[col := s]> (numeric df) |}.

Definition numeric_columns : list string :=
  ["PM2.5"; "PM10"; "O3"; "NO2"; "Temperature"; "Humidity"].

(** Body of the first cleaning loop:
    [df[col].fillna(df[col].median(), inplace=True)]. *)
Definition fillna_median (df : DataFrame) (col : string) : result DataFrame :=
  s ← getitem df col;
  s' ← getitem df col;
  Ok (setitem df col (Pd.fillna s (Pd.median s'))).

(** Body of the second cleaning loop:
    [df[col] = df[col].apply(lambda x: max(0, x))]. *)
Definition clamp_nonneg (df : DataFrame) (col : string) : result DataFrame :=
  s ← getitem df col;
  Ok (setitem df col (Pd.apply s (fun x => Py.max zero x))).

(** The two cleaning loops, over given column lists; the script runs both
    over [numeric_columns]. *)
Definition clean_in_order (cols1 cols2 : list string) (df : DataFrame)
  : result DataFrame :=
  df1 ← for_each fillna_median cols1 df;
  for_each clamp_nonneg cols2 df1.

Definition cleaner (df : DataFrame) : result DataFrame :=
  clean_in_order numeric_columns numeric_columns df.

(** *** Station-wise analysis *)

Definition avg_pm25_by_station (df : DataFrame) : result (Pd.series string) :=
  s ← getitem df "PM2.5"; Ok (Pd.groupby_mean (Station_ID df) s).
Definition highest_pm25_station (df : DataFrame) : result (option string) :=
  s ← avg_pm25_by_station df; Pd.idxmax s.
Definition highest_pm25_value (df : DataFrame) : result float :=
  s ← avg_pm25_by_station df; Ok (Pd.max s).

Definition avg_o3_by_station (df : DataFrame) : result (Pd.series string) :=
  s ← getitem df "O3"; Ok (Pd.groupby_mean (Station_ID df) s).
Definition lowest_o3_station (df : DataFrame) : result (option string) :=
  s ← avg_o3_by_station df; Pd.idxmin s.
Definition lowest_o3_value (df : DataFrame) : result float :=
  s ← avg_o3_by_station df; Ok (Pd.min s).

Definition specific_station_id : string := "S003".

Definition station_mask (df : DataFrame) (id : string) : list bool :=
  (fun s => bool_decide (s = id)) <$> Station_ID df.

Definition daily_avg_pm25_s003 (df : DataFrame) : result (Pd.series Z) :=
  let mask := station_mask df specific_station_id in
  s ← getitem df "PM2.5";
  Ok (Pd.groupby_mean (Pd.date <$> Pd.select mask (Timestamp df))
                      (Pd.select mask s)).

Definition threshold : float := of_Z 50.

Definition days_exceeding_threshold (df : DataFrame) : result (Pd.series Z) :=
  s ← daily_avg_pm25_s003 df; Ok (Pd.filter_gt s threshold).

(** *** Time-series analysis *)

(** [df["Timestamp"].dt.date.min()]; of no row it is NaN, equal to no
    date. *)
Definition first_date (df : DataFrame) : option Z :=
  match Pd.date <$> Timestamp df with
  | [] => None
  | d :: ds => Some (foldl Z.min d ds)
  end.

Definition station_s001_first_day_mask (df : DataFrame) : list bool :=
  zip_with andb (station_mask df "S001")
    ((fun t => bool_decide (Some (Pd.date t) = first_date df)) <$> Timestamp df).

Definition hourly_pm25_s001 (df : DataFrame) : result (Pd.series Z) :=
  let mask := station_s001_first_day_mask df in
  s ← getitem df "PM2.5";
  Ok (Pd.resample_H_mean (Pd.select mask (Timestamp df)) (Pd.select mask s)).

(** [hourly_pm25_s001.idxmax().hour]; of the missing label (NaT) the
    hour is NaN, [None]. *)
Definition peak_hour_pm25 (df : DataFrame) : result (option Z) :=
  s ← hourly_pm25_s001 df;
  i ← Pd.idxmax s;
  Ok (match i with Some t => Some (Pd.hour t) | None => None end).

Definition peak_pm25_value (df : DataFrame) : result float :=
  s ← hourly_pm25_s001 df; Ok (Pd.max s).

(** ** The classifier (section 6 of the script) *)

Definition f12_0 : float := Eval vm_compute in decimal 120 1.
Definition f35_4 : float := Eval vm_compute in decimal 354 1.
Definition f55_4 : float := Eval vm_compute in decimal 554 1.
Definition f150_4 : float := Eval vm_compute in decimal 1504 1.
Definition f250_4 : float := Eval vm_compute in decimal 2504 1.

Definition calculate_aqi_pm25 (pm25_concentration : float) : string :=
  if leb pm25_concentration f12_0 then "Good"
  else if leb pm25_concentration f35_4 then "Moderate"
  else if leb pm25_concentration f55_4 then "Unhealthy for Sensitive Groups"
  else if leb pm25_concentration f150_4 then "Unhealthy"
  else if leb pm25_concentration f250_4 then "Very Unhealthy"
  else "Hazardous".

(** The six labels. *)
Definition categories : list string :=
  ["Good"; "Moderate"; "Unhealthy for Sensitive Groups"; "Unhealthy";
   "Very Unhealthy"; "Hazardous"].

(** [df["PM2.5_AQI_Category"] = df["PM2.5"].apply(calculate_aqi_pm25)] *)
Definition PM25_AQI_Category (df : DataFrame) : result (list string) :=
  s ← getitem df "PM2.5"; Ok (Pd.apply s calculate_aqi_pm25).

(** ** Derived notions used in the statements *)

(** The table with its numeric columns replaced. *)
Definition with_numeric (df : DataFrame) (m : gmap string Pd.column) : DataFrame :=
  {| Station_ID := Station_ID df; Timestamp := Timestamp df; numeric := m |}.

(** What one iteration of each cleaning loop does to its column. *)
Definition impute (s : Pd.column) : Pd.column := Pd.fillna s (Pd.median s).
Definition clamp (s : Pd.column) : Pd.column := Pd.apply s (fun x => Py.max zero x).

(** A column transformer applied to the columns named in a list, one
    after the other. *)
Definition alter_all (f : Pd.column -> Pd.column) (cols : list string)
    (m : gmap string Pd.column) : gmap string Pd.column :=
  foldl (fun m c => alter f c m) m cols.

(** Every column of the list is in the table. *)
Definition has_columns (cols : list string) (df : DataFrame) : Prop :=
  Forall (fun c => is_Some (numeric df !! c)) cols.

(** The laws a key comparison has to obey for the groups to come out in
    key order. *)
Class KeyCmpLaws (K : Type) `{Pd.KeyCmp K} : Prop := {
  key_cmp_eq : forall a b : K, Pd.key_cmp a b = Eq -> a = b;
  key_cmp_antisym : forall a b : K, Pd.key_cmp b a = CompOpp (Pd.key_cmp a b);
  key_cmp_trans : forall a b c : K,
    Pd.key_cmp a b = Lt -> Pd.key_cmp b c = Lt -> Pd.key_cmp a c = Lt
}.

Definition key_lt {K : Type} `{Pd.KeyCmp K} (a b : K) : Prop := Pd.key_cmp a b = Lt.

(** A series without a missing value. *)
Definition no_na {K : Type} (s : Pd.series K) : Prop :=
  Forall (fun kv => is_nan kv.2 = false) s.

(** A small raw table: missing cells, negative cells, and a column with
    no observation at all. *)
Definition example_raw : DataFrame :=
  {| Station_ID := ["S001"; "S001"; "S003"; "S003"; "S003"];
     Timestamp := [0; 3600; 0; 86400; 90000];
     numeric := list_to_map
       [("PM2.5", [of_Z 10; nan; of_Z 20; nan; of_Z 30]);
        ("PM10", [of_Z (-5); of_Z 0; of_Z 5; nan; of_Z 7]);
        ("O3", [of_Z 40; of_Z 42; nan; of_Z 44; of_Z 46]);
        ("NO2", [of_Z 1; of_Z 2; of_Z 3; of_Z 4; of_Z 5]);
        ("Temperature", [of_Z (-3); of_Z 21; of_Z 22; nan; of_Z 25]);
        ("Humidity", [nan; nan; nan; nan; nan])] |}.

(** A raw table whose PM2.5 column holds both infinities and a missing
    cell. *)
Definition example_inf : DataFrame :=
  {| Station_ID := ["S001"; "S001"; "S001"];
     Timestamp := [0; 3600; 7200];
     numeric := list_to_map
       [("PM2.5", [ninf; nan; pinf]);
        ("PM10", [of_Z 1; of_Z 2; of_Z 3]);
        ("O3", [of_Z 1; of_Z 2; of_Z 3]);
        ("NO2", [of_Z 1; of_Z 2; of_Z 3]);
        ("Temperature", [of_Z 1; of_Z 2; of_Z 3]);
        ("Humidity", [of_Z 1; of_Z 2; of_Z 3])] |}.

(** A cleaned table in the shape of the spec's scenario: station S001 on
    the first day, station S003 on two days with PM2.5 means 55 and 48. *)
Definition example_two_days : DataFrame :=
  {| Station_ID := ["S001"; "S001"; "S003"; "S003"; "S003"];
     Timestamp := [0; 3600; 7200; 10800; 86400];
     numeric := list_to_map
       [("PM2.5", [of_Z 12; of_Z 40; of_Z 50; of_Z 60; of_Z 48]);
        ("O3", [of_Z 30; of_Z 30; of_Z 20; of_Z 20; of_Z 20])] |}.

(** A table with rows for station S002 only. *)
Definition example_other_station : DataFrame :=
  {| Station_ID := ["S002"; "S002"];
     Timestamp := [0; 3600];
     numeric := list_to_map
       [("PM2.5", [of_Z 12; of_Z 40]); ("O3", [of_Z 30; of_Z 31])] |}.

(** The cells of a column are readings or missing: no infinity. *)
Definition finite_or_missing (s : Pd.column) : Prop :=
  Forall (fun x => is_finite x = true \/ is_nan x = true) s.

(** ** The rest of the script *)

(** [s.nunique()]: the number of distinct values. *)
Definition nunique {A : Type} `{EqDecision A} (s : list A) : nat :=
  length (remove_dups s).

(** [df["Station ID"].nunique()] (section 1 of the script). *)
Definition unique_stations (df : DataFrame) : nat := nunique (Station_ID df).

(** Section 3 of the script: the columns it describes and correlates. *)
Definition pollutants : list string := ["PM2.5"; "PM10"; "O3"; "NO2"].
Definition correlation_cols : list string :=
  pollutants ++ ["Temperature"; "Humidity"].

(** [df[cols]] for a list of numeric columns: the columns in the order
    asked for; the first absent one raises. *)
Fixpoint getitems (df : DataFrame) (cols : list string) : result (list Pd.column) :=
  match cols with
  | [] => Ok []
  | c :: cols' => s ← getitem df c; ss ← getitems df cols'; Ok (s :: ss)
  end.


(** ** Further notions used in the statements *)





(** Python's [1e308] and [1e100]: the binary64 values nearest to
    [10^308] and [10^100]. *)
Definition f1e308 : float := Eval vm_compute in of_Z (10 ^ 308).

(** A cleaned table of three stations whose O3 readings are all [1e308]:
    the compensated sum of three of them is NaN, of two of them +inf. *)
Definition example_overflow : DataFrame :=
  {| Station_ID := ["A"; "A"; "A"; "B"; "B"; "C"; "C"];
     Timestamp := [0; 3600; 7200; 0; 3600; 0; 3600];
     numeric := list_to_map
       [("PM2.5", [of_Z 1; of_Z 2; of_Z 3; of_Z 4; of_Z 5; of_Z 6; of_Z 7]);
        ("PM10", [of_Z 1; of_Z 2; of_Z 3; of_Z 4; of_Z 5; of_Z 6; of_Z 7]);
        ("O3", [f1e308; f1e308; f1e308; f1e308; f1e308; f1e308; f1e308]);
        ("NO2", [of_Z 1; of_Z 2; of_Z 3; of_Z 4; of_Z 5; of_Z 6; of_Z 7]);
        ("Temperature", [of_Z 1; of_Z 2; of_Z 3; of_Z 4; of_Z 5; of_Z 6; of_Z 7]);
        ("Humidity", [of_Z 1; of_Z 2; of_Z 3; of_Z 4; of_Z 5; of_Z 6; of_Z 7])] |}.

(** A cleaned table with three rows of station S001 in one hour, each
    with a PM2.5 reading of [1e308]. *)
Definition example_one_hour : DataFrame :=
  {| Station_ID := ["S001"; "S001"; "S001"];
     Timestamp := [0; 600; 1200];
     numeric := list_to_map
       [("PM2.5", [f1e308; f1e308; f1e308]);
        ("PM10", [of_Z 1; of_Z 2; of_Z 3]);
        ("O3", [of_Z 1; of_Z 2; of_Z 3]);
        ("NO2", [of_Z 1; of_Z 2; of_Z 3]);
        ("Temperature", [of_Z 1; of_Z 2; of_Z 3]);
        ("Humidity", [of_Z 1; of_Z 2; of_Z 3])] |}.


(** The rows of [vals] whose key is [k]: [vals[keys == k]]. *)
Definition rows_of {K : Type} `{EqDecision K} (k : K) (keys : list K)
    (vals : Pd.column) : Pd.column :=
  Pd.select ((fun k' => bool_decide (k' = k)) <$> keys) vals.

(** The values collected for key [k] in a list of groups. *)
Fixpoint group_values {K : Type} `{EqDecision K} (k : K)
    (gs : list (K * Pd.column)) : Pd.column :=
  match gs with
  | [] => []
  | (k', vs) :: gs' => if decide (k' = k) then vs else group_values k gs'
  end.

(** A cell that is present and not below zero. *)
Definition clean_cell (x : float) : Prop := is_nan x = false /\ leb zero x = true.

(** A raw table without its PM10 and NO2 columns. *)
Definition example_missing_columns : DataFrame :=
  {| Station_ID := ["S001"; "S002"];
     Timestamp := [0; 3600];
     numeric := list_to_map
       [("PM2.5", [of_Z 10; nan]); ("O3", [of_Z 40; of_Z 42]);
        ("Temperature", [of_Z 20; of_Z 21]);
        ("Humidity", [of_Z 50; of_Z 55])] |}.

(** A raw table in which no PM2.5 reading was recorded. *)
Definition example_no_pm25 : DataFrame :=
  {| Station_ID := ["S001"; "S002"; "S002"];
     Timestamp := [0; 0; 3600];
     numeric := list_to_map
       [("PM2.5", [nan; nan; nan]);
        ("PM10", [of_Z 11; of_Z 12; of_Z 13]);
        ("O3", [of_Z 40; of_Z 42; of_Z 41]);
        ("NO2", [of_Z 7; of_Z 8; of_Z 9]);
        ("Temperature", [of_Z 20; of_Z 21; of_Z 22]);
        ("Humidity", [of_Z 50; of_Z 55; of_Z 60])] |}.

(** * Properties *)

(** ** Order facts on binary64 values *)

Module F64Facts.

Lemma compare_rank (x y : float) :
  is_nan x = false -> is_nan y = false ->
  exists c, SFcompare x y = Some c /\
    match c with
    | Eq => rank x = rank y
    | Lt => lex_lt (rank x) (rank y)
    | Gt => lex_lt (rank y) (rank x)
    end.
Proof.
  intros Hx Hy.
  destruct x as [sx|sx| |sx mx ex]; try discriminate;
  destruct y as [sy|sy| |sy my ey]; try discriminate;
  try destruct sx; try destruct sy; cbn [SFcompare rank];
  try (eexists; split; [reflexivity|]; unfold lex_lt; cbn; first [reflexivity | lia]).
  - change (Pos.compare_cont Eq mx my) with (Pos.compare mx my).
    destruct (Z.compare_spec ex ey), (Pos.compare_spec mx my);
      eexists; (split; [reflexivity|]); unfold lex_lt; cbn; subst;
      first [reflexivity | lia].
  - change (Pos.compare_cont Eq mx my) with (Pos.compare mx my).
    destruct (Z.compare_spec ex ey), (Pos.compare_spec mx my);
      eexists; (split; [reflexivity|]); unfold lex_lt; cbn; subst;
      first [reflexivity | lia].
Qed.

Lemma leb_rank (x y : float) :
  is_nan x = false -> is_nan y = false ->
  leb x y = true <-> lex_le (rank x) (rank y).
Proof.
  intros Hx Hy. destruct (compare_rank x y Hx Hy) as (c & Hc & Hr).
  unfold leb, SFleb. rewrite Hc.
  destruct (rank x) as [[a1 b1] c1], (rank y) as [[a2 b2] c2].
  unfold lex_le, lex_lt in *; cbn in *.
  destruct c; [injection Hr as -> -> -> | |]; split; intros; first [done | lia].
Qed.

Lemma ltb_rank (x y : float) :
  is_nan x = false -> is_nan y = false ->
  ltb x y = true <-> lex_lt (rank x) (rank y).
Proof.
  intros Hx Hy. destruct (compare_rank x y Hx Hy) as (c & Hc & Hr).
  unfold ltb, SFltb. rewrite Hc.
  destruct (rank x) as [[a1 b1] c1], (rank y) as [[a2 b2] c2].
  unfold lex_lt in *; cbn in *.
  destruct c; [injection Hr as -> -> -> | |]; split; intros; first [done | lia].
Qed.

Lemma leb_not_nan (x y : float) :
  leb x y = true -> is_nan x = false /\ is_nan y = false.
Proof. destruct x, y; done. Qed.

Lemma ltb_not_nan (x y : float) :
  ltb x y = true -> is_nan x = false /\ is_nan y = false.
Proof. destruct x, y; done. Qed.

(** On non-NaN values the order is total: [y < x] is the negation of
    [x <= y]. *)
Lemma ltb_negb_leb (x y : float) :
  is_nan x = false -> is_nan y = false -> ltb y x = negb (leb x y).
Proof.
  intros Hx Hy.
  pose proof (leb_rank x y Hx Hy) as Hle. pose proof (ltb_rank y x Hy Hx) as Hlt.
  destruct (rank x) as [[a1 b1] c1], (rank y) as [[a2 b2] c2].
  unfold lex_le, lex_lt in *; cbn in *.
  destruct (leb x y), (ltb y x); cbn; try done.
  - exfalso. pose proof (proj1 Hle eq_refl). pose proof (proj1 Hlt eq_refl). lia.
  - exfalso.
    assert (~ (a1 < a2 \/ a1 = a2 /\ (b1 < b2 \/ b1 = b2 /\ c1 <= c2))) as N1
      by (intros E; apply Hle in E; done).
    assert (~ (a2 < a1 \/ a2 = a1 /\ (b2 < b1 \/ b2 = b1 /\ c2 < c1))) as N2
      by (intros E; apply Hlt in E; done).
    lia.
Qed.

Lemma leb_trans (x y z : float) :
  leb x y = true -> leb y z = true -> leb x z = true.
Proof.
  intros Hxy Hyz.
  destruct (leb_not_nan _ _ Hxy) as [Hx Hy], (leb_not_nan _ _ Hyz) as [_ Hz].
  apply leb_rank in Hxy, Hyz; try done. apply leb_rank; try done.
  destruct (rank x) as [[a1 b1] c1], (rank y) as [[a2 b2] c2],
    (rank z) as [[a3 b3] c3].
  unfold lex_le in *; cbn in *. lia.
Qed.

Lemma ltb_leb_trans (x y z : float) :
  ltb x y = true -> leb y z = true -> ltb x z = true.
Proof.
  intros Hxy Hyz.
  destruct (ltb_not_nan _ _ Hxy) as [Hx Hy], (leb_not_nan _ _ Hyz) as [_ Hz].
  apply ltb_rank in Hxy; try done. apply leb_rank in Hyz; try done.
  apply ltb_rank; try done.
  destruct (rank x) as [[a1 b1] c1], (rank y) as [[a2 b2] c2],
    (rank z) as [[a3 b3] c3].
  unfold lex_le, lex_lt in *; cbn in *. lia.
Qed.

Lemma leb_refl (x : float) : is_nan x = false -> leb x x = true.
Proof.
  intros Hx. apply leb_rank; try done.
  destruct (rank x) as [[a b] c]. unfold lex_le; cbn. lia.
Qed.

Lemma ltb_leb (x y : float) : ltb x y = true -> leb x y = true.
Proof.
  unfold ltb, leb, SFltb, SFleb. by destruct (SFcompare x y) as [[]|].
Qed.

Lemma leb_ltb_trans (x y z : float) :
  leb x y = true -> ltb y z = true -> ltb x z = true.
Proof.
  intros Hxy Hyz.
  destruct (leb_not_nan _ _ Hxy) as [Hx Hy], (ltb_not_nan _ _ Hyz) as [_ Hz].
  apply leb_rank in Hxy; try done. apply ltb_rank in Hyz; try done.
  apply ltb_rank; try done.
  destruct (rank x) as [[a1 b1] c1], (rank y) as [[a2 b2] c2],
    (rank z) as [[a3 b3] c3].
  unfold lex_le, lex_lt in *; cbn in *. lia.
Qed.

Lemma ltb_leb_false (x y : float) : ltb x y = true -> leb y x = false.
Proof.
  intros Hxy. destruct (ltb_not_nan _ _ Hxy) as [Hx Hy].
  rewrite (ltb_negb_leb y x Hy Hx) in Hxy. by destruct (leb y x).
Qed.

Lemma not_ltb_leb (x y : float) :
  is_nan x = false -> is_nan y = false -> ltb x y = false -> leb y x = true.
Proof.
  intros Hx Hy Hxy. rewrite (ltb_negb_leb y x Hy Hx) in Hxy.
  by destruct (leb y x).
Qed.

(** *** Rounding never produces NaN

    The last [match] of [binary_round_aux] has a NaN branch for a negative
    mantissa; shifting and rounding keep a non-negative mantissa
    non-negative, so the branch is dead. *)

Lemma shr_1_nonneg (mrs : shr_record) : 0 <= shr_m mrs -> 0 <= shr_m (shr_1 mrs).
Proof. destruct mrs as [[|[p|p|]|[p|p|]] r s]; cbn; lia. Qed.

Lemma iter_shr_1_nonneg (p : positive) (mrs : shr_record) :
  0 <= shr_m mrs -> 0 <= shr_m (SpecFloat.iter_pos shr_1 p mrs).
Proof.
  revert mrs. induction p as [p IH|p IH|]; intros mrs Hm; cbn.
  - by apply IH, IH, shr_1_nonneg.
  - by apply IH, IH.
  - by apply shr_1_nonneg.
Qed.

Lemma shr_nonneg (mrs : shr_record) (e n : Z) :
  0 <= shr_m mrs -> 0 <= shr_m (shr mrs e n).1.
Proof. intros Hm. destruct n; cbn; try done. by apply iter_shr_1_nonneg. Qed.

Lemma shr_fexp_nonneg (m e : Z) (l : location) :
  0 <= m -> 0 <= shr_m (shr_fexp prec emax m e l).1.
Proof.
  intros Hm. unfold shr_fexp. apply shr_nonneg.
  by destruct l as [|[]].
Qed.

Lemma round_nearest_even_nonneg (m : Z) (l : location) :
  0 <= m -> 0 <= round_nearest_even m l.
Proof.
  intros Hm. destruct l as [|[]]; cbn; try lia. destruct (Z.even m); lia.
Qed.

Lemma binary_round_aux_signed (sx : bool) (mx ex : Z) (lx : location) :
  0 <= mx -> signed sx (binary_round_aux prec emax sx mx ex lx).
Proof.
  intros Hm. unfold binary_round_aux.
  pose proof (shr_fexp_nonneg mx ex lx Hm) as H1.
  destruct (shr_fexp prec emax mx ex lx) as [mrs' e']. cbn in H1.
  pose proof (shr_fexp_nonneg _ e' loc_Exact
                (round_nearest_even_nonneg _ (loc_of_shr_record mrs') H1)) as H2.
  destruct (shr_fexp prec emax _ e' loc_Exact) as [mrs'' e'']. cbn in H2.
  destruct (shr_m mrs'') as [|m|m]; [by left | | lia].
  destruct (e'' <=? emax - prec); [right; right; by eauto | right; by left].
Qed.

Lemma binary_round_signed (sx : bool) (mx : positive) (ex : Z) :
  signed sx (binary_round prec emax sx mx ex).
Proof.
  unfold binary_round. destruct (shl_align _ _ _) as [mz ez].
  by apply binary_round_aux_signed.
Qed.

Lemma signed_not_nan (s : bool) (x : float) : signed s x -> is_nan x = false.
Proof. by intros [->|[->|(m & e & ->)]]. Qed.

Lemma binary_normalize_not_nan (m e : Z) (sz : bool) :
  is_nan (binary_normalize prec emax m e sz) = false.
Proof.
  destruct m; cbn; [done| |]; eapply signed_not_nan, binary_round_signed.
Qed.

(** The sum of two finite values is a number (possibly an infinity). *)
Lemma add_finite_not_nan (x y : float) :
  is_finite x = true -> is_finite y = true -> is_nan (add x y) = false.
Proof.
  destruct x as [sx|sx| |sx mx ex]; try done;
  destruct y as [sy|sy| |sy my ey]; try done; intros _ _.
  - by destruct sx, sy.
  - apply binary_normalize_not_nan.
Qed.

(** A number divided by a finite non-zero value is a number, of the
    sign the two signs give. *)
Lemma div_signed (sx sy : bool) (x : float) (my : positive) (ey : Z) :
  signed sx x -> signed (xorb sx sy) (div x (S754_finite sy my ey)).
Proof.
  intros [->|[->|(mx & ex & ->)]]; [by left | right; by left |].
  unfold div, SFdiv.
  destruct (SFdiv_core_binary prec emax (Z.pos mx) ex (Z.pos my) ey)
    as [[q e'] l] eqn:Hcore.
  apply binary_round_aux_signed.
  unfold SFdiv_core_binary in Hcore.
  match type of Hcore with
  | (let '(q, r) := Z.div_eucl ?a ?b in _) = _ =>
    pose proof (Z_div_mod a b eq_refl) as Hdm;
    assert (0 <= a) as Ha; [|destruct (Z.div_eucl a b) as [q' r']]
  end.
  - destruct (ex - ey - _) as [|p|p]; [lia| |lia].
    apply Z.shiftl_nonneg. lia.
  - injection Hcore as <- _ _. nia.
Qed.

Lemma div_finite_not_nan (x : float) (sy : bool) (my : positive) (ey : Z) :
  is_nan x = false -> is_nan (div x (S754_finite sy my ey)) = false.
Proof.
  destruct x as [sx|sx| |sx mx ex]; try done. intros _.
  eapply signed_not_nan, (div_signed sx). right; right; by eauto.
Qed.

(** *** Shifted mantissas *)


End F64Facts.

Import F64Facts.

(** ** The classifier *)

Lemma breakpoints_ordered :
  leb f12_0 f35_4 = true /\ leb f35_4 f55_4 = true /\
  leb f55_4 f150_4 = true /\ leb f150_4 f250_4 = true.
Proof. repeat split; reflexivity. Qed.

(** The breakpoints are well-formed doubles. *)
Lemma breakpoints_valid :
  Forall (fun c => valid c = true) [f12_0; f35_4; f55_4; f150_4; f250_4].
Proof. repeat constructor. Qed.

(** A reading below one breakpoint is below the later ones. *)
Lemma leb_mono (x c d : float) : leb c d = true -> leb x c = true -> leb x d = true.
Proof. intros Hcd Hxc. by apply leb_trans with c. Qed.

(** C1. The classifier maps a reading to exactly one of the six labels, by
    inclusive upper bounds: for every reading that is not NaN (so for every
    finite one) the label is "Good" exactly when [pm25 <= 12.0], "Moderate"
    exactly when [12.0 < pm25 <= 35.4], and so on up to "Hazardous" exactly
    when [pm25 > 250.4]; each breakpoint itself falls into the lower
    category. *)
Theorem C1_calculate_aqi_pm25_breakpoints (pm25 : float) :
  is_nan pm25 = false ->
  (calculate_aqi_pm25 pm25 = "Good" <-> leb pm25 f12_0 = true) /\
  (calculate_aqi_pm25 pm25 = "Moderate" <->
     ltb f12_0 pm25 = true /\ leb pm25 f35_4 = true) /\
  (calculate_aqi_pm25 pm25 = "Unhealthy for Sensitive Groups" <->
     ltb f35_4 pm25 = true /\ leb pm25 f55_4 = true) /\
  (calculate_aqi_pm25 pm25 = "Unhealthy" <->
     ltb f55_4 pm25 = true /\ leb pm25 f150_4 = true) /\
  (calculate_aqi_pm25 pm25 = "Very Unhealthy" <->
     ltb f150_4 pm25 = true /\ leb pm25 f250_4 = true) /\
  (calculate_aqi_pm25 pm25 = "Hazardous" <-> ltb f250_4 pm25 = true) /\
  calculate_aqi_pm25 f12_0 = "Good" /\
  calculate_aqi_pm25 f35_4 = "Moderate" /\
  calculate_aqi_pm25 f55_4 = "Unhealthy for Sensitive Groups" /\
  calculate_aqi_pm25 f150_4 = "Unhealthy" /\
  calculate_aqi_pm25 f250_4 = "Very Unhealthy".
Proof.
  intros Hx.
  rewrite !(ltb_negb_leb pm25) by done.
  destruct breakpoints_ordered as (O1 & O2 & O3 & O4).
  pose proof (leb_mono pm25 _ _ O1) as M1.
  pose proof (leb_mono pm25 _ _ O2) as M2.
  pose proof (leb_mono pm25 _ _ O3) as M3.
  pose proof (leb_mono pm25 _ _ O4) as M4.
  unfold calculate_aqi_pm25.
  destruct (leb pm25 f12_0) eqn:E1; [specialize (M1 eq_refl)|clear M1];
  (destruct (leb pm25 f35_4) eqn:E2; [specialize (M2 eq_refl)|clear M2]);
  (destruct (leb pm25 f55_4) eqn:E3; [specialize (M3 eq_refl)|clear M3]);
  (destruct (leb pm25 f150_4) eqn:E4; [specialize (M4 eq_refl)|clear M4]);
  destruct (leb pm25 f250_4) eqn:E5;
  try discriminate;
  (repeat split; try reflexivity; cbn; intros; try done;
   match goal with H : _ /\ _ |- _ => destruct H; done end).
Qed.

(** The rest of the spec's boundary table: one tenth above a breakpoint
    is already the next category. *)
Lemma just_above_breakpoints :
  calculate_aqi_pm25 (decimal 121 1) = "Moderate" /\
  calculate_aqi_pm25 (decimal 355 1) = "Unhealthy for Sensitive Groups" /\
  calculate_aqi_pm25 (decimal 555 1) = "Unhealthy" /\
  calculate_aqi_pm25 (decimal 1505 1) = "Very Unhealthy" /\
  calculate_aqi_pm25 (decimal 2505 1) = "Hazardous".
Proof. repeat split; reflexivity. Qed.

Lemma C1_witness :
  is_nan f35_4 = false /\ calculate_aqi_pm25 f35_4 = "Moderate".
Proof.
  split; [reflexivity|].
  destruct (C1_calculate_aqi_pm25_breakpoints f35_4 eq_refl) as (_ & HM & _).
  apply HM. split; reflexivity.
Defined.

Lemma negative_below_first_breakpoint (x : float) :
  ltb x zero = true -> leb x f12_0 = true.
Proof.
  intros Hx. apply ltb_leb. by apply ltb_leb_trans with zero.
Qed.

(** C4. The classifier returns one of the six labels on every input (it is
    a total function of its argument: no input makes it raise, and equal
    inputs give equal labels), and every reading below zero takes the
    [pm25 <= 12.0] branch and is "Good". *)
Theorem C4_calculate_aqi_pm25_total (pm25 : float) :
  calculate_aqi_pm25 pm25 ∈ categories /\
  (ltb pm25 zero = true ->
   leb pm25 f12_0 = true /\ calculate_aqi_pm25 pm25 = "Good").
Proof.
  split.
  - unfold calculate_aqi_pm25, categories.
    repeat case_match; set_solver.
  - intros Hneg. pose proof (negative_below_first_breakpoint _ Hneg) as Hle.
    split; [done|]. unfold calculate_aqi_pm25. by rewrite Hle.
Qed.

Lemma C4_witness :
  ltb (of_Z (-5)) zero = true /\ calculate_aqi_pm25 (of_Z (-5)) = "Good".
Proof.
  split; [reflexivity|].
  destruct (C4_calculate_aqi_pm25_total (of_Z (-5))) as [_ Hneg].
  apply Hneg. reflexivity.
Defined.

(** ** The cleaner *)

Section ColumnLoop.
(** A loop body of the shape [df[col] = f(df[col])]. *)
Variable f : Pd.column -> Pd.column.
Variable body : DataFrame -> string -> result DataFrame.
Hypothesis body_spec : forall df col,
  body df col = (s ← getitem df col; Ok (setitem df col (f s))).

Lemma body_Some (df : DataFrame) (col : string) (s : Pd.column) :
  numeric df !! col = Some s ->
  body df col = Ok (with_numeric df (alter f col (numeric df))).
Proof.
  intros Hs. rewrite body_spec. unfold getitem. rewrite Hs. cbn.
  unfold setitem, with_numeric. by rewrite (alter_alt_Some _ _ _ _ Hs).
Qed.

Lemma body_None (df : DataFrame) (col : string) :
  numeric df !! col = None -> body df col = Raise (KeyError col).
Proof. intros Hs. rewrite body_spec. unfold getitem. by rewrite Hs. Qed.

Lemma for_each_Ok (cols : list string) (df : DataFrame) :
  has_columns cols df ->
  for_each body cols df = Ok (with_numeric df (alter_all f cols (numeric df))).
Proof.
  revert df. induction cols as [|c cols IH]; intros df Hall.
  - by destruct df.
  - apply Forall_cons in Hall as [[s Hs] Hall]. cbn.
    rewrite (body_Some _ _ _ Hs). cbn. rewrite IH.
    + done.
    + eapply Forall_impl; [exact Hall|]. cbn. intros c' Hc'.
      by apply lookup_alter_is_Some.
Qed.

Lemma for_each_Raise (cols : list string) (df : DataFrame) :
  ~ has_columns cols df ->
  exists c, c ∈ cols /\ numeric df !! c = None /\
            for_each body cols df = Raise (KeyError c).
Proof.
  revert df. induction cols as [|c cols IH]; intros df Hall.
  - destruct Hall. constructor.
  - cbn. destruct (numeric df !! c) as [s|] eqn:Hs.
    + rewrite (body_Some _ _ _ Hs). cbn.
      destruct (IH (with_numeric df (alter f c (numeric df)))) as (c' & Hin & Hn & Hr).
      * intros Hall'. apply Hall. constructor; [by eexists|].
        eapply Forall_impl; [exact Hall'|]. cbn. intros c' Hc'.
        by apply lookup_alter_is_Some in Hc'.
      * exists c'. split; [by right|]. split; [|done].
        cbn in Hn. apply eq_None_not_Some. intros Hc'.
        apply (lookup_alter_is_Some f _ c) in Hc'. rewrite Hn in Hc'.
        by destruct Hc'.
    + exists c. split; [by left|]. split; [done|].
      by rewrite (body_None _ _ Hs).
Qed.

Lemma for_each_Ok_inv (cols : list string) (df t : DataFrame) :
  for_each body cols df = Ok t ->
  has_columns cols df /\ t = with_numeric df (alter_all f cols (numeric df)).
Proof.
  intros Hok. destruct (decide (has_columns cols df)) as [Hall|Hall].
  - split; [done|]. rewrite (for_each_Ok _ _ Hall) in Hok. by injection Hok.
  - destruct (for_each_Raise _ _ Hall) as (c & _ & _ & Hr). congruence.
Qed.
End ColumnLoop.

Lemma alter_all_lookup (f : Pd.column -> Pd.column) (cols : list string)
    (m : gmap string Pd.column) (k : string) :
  NoDup cols ->
  alter_all f cols m !! k = if decide (k ∈ cols) then f <$> m !! k else m !! k.
Proof.
  revert m. induction cols as [|c cols IH]; intros m Hnd.
  - cbn. case_decide; [set_solver|done].
  - apply NoDup_cons in Hnd as [Hc Hnd].
    change (alter_all f (c :: cols) m) with (alter_all f cols (alter f c m)).
    rewrite (IH _ Hnd), lookup_alter.
    destruct (decide (k ∈ cols)) as [Hk|Hk], (decide (c = k)) as [Hck|Hck],
      (decide (k ∈ c :: cols)) as [Hk'|Hk'];
      try done; try congruence; exfalso.
    + apply Hk'. by right.
    + apply Hk'. subst. by left.
    + apply elem_of_cons in Hk' as [?|?]; congruence.
Qed.

Lemma alter_all_is_Some (f : Pd.column -> Pd.column) (cols : list string)
    (m : gmap string Pd.column) (k : string) :
  is_Some (alter_all f cols m !! k) <-> is_Some (m !! k).
Proof.
  revert m. induction cols as [|c cols IH]; intros m; [done|].
  change (alter_all f (c :: cols) m) with (alter_all f cols (alter f c m)).
  rewrite IH. apply lookup_alter_is_Some.
Qed.

(** Two orders of the same distinct columns transform the map alike. *)
Lemma alter_all_Permutation (f : Pd.column -> Pd.column) (cols cols' : list string)
    (m : gmap string Pd.column) :
  NoDup cols -> cols ≡ₚ cols' -> alter_all f cols m = alter_all f cols' m.
Proof.
  intros Hnd Hp. apply map_eq. intros k.
  rewrite !alter_all_lookup; [|by rewrite <- Hp|done].
  destruct (decide (k ∈ cols)) as [Hk|Hk], (decide (k ∈ cols')) as [Hk'|Hk'];
    try done; exfalso.
  - apply Hk'. by rewrite <- Hp.
  - apply Hk. by rewrite Hp.
Qed.

Lemma fillna_median_spec (df : DataFrame) (col : string) :
  fillna_median df col = (s ← getitem df col; Ok (setitem df col (impute s))).
Proof. unfold fillna_median, getitem. by destruct (numeric df !! col). Qed.

Lemma clamp_nonneg_spec (df : DataFrame) (col : string) :
  clamp_nonneg df col = (s ← getitem df col; Ok (setitem df col (clamp s))).
Proof. reflexivity. Qed.

Lemma numeric_columns_NoDup : NoDup numeric_columns.
Proof. compute_done. Qed.

Lemma has_columns_Permutation (cols cols' : list string) (df : DataFrame) :
  cols ≡ₚ cols' -> has_columns cols df <-> has_columns cols' df.
Proof. intros Hp. unfold has_columns. by rewrite Hp. Qed.

Lemma has_columns_with_numeric (f : Pd.column -> Pd.column)
    (cols cols' : list string) (df : DataFrame) :
  has_columns cols df ->
  has_columns cols (with_numeric df (alter_all f cols' (numeric df))).
Proof.
  unfold has_columns. intros Hall. eapply Forall_impl; [exact Hall|].
  cbn. intros c Hc. by apply alter_all_is_Some.
Qed.

(** The cleaner in closed form: it succeeds exactly on the tables that
    have the columns, and then imputes and clamps each of them. *)
Lemma clean_in_order_Ok (cols1 cols2 : list string) (df : DataFrame) :
  has_columns cols1 df -> has_columns cols2 df ->
  clean_in_order cols1 cols2 df =
    Ok (with_numeric df (alter_all clamp cols2 (alter_all impute cols1 (numeric df)))).
Proof.
  intros H1 H2. unfold clean_in_order.
  rewrite (for_each_Ok impute _ fillna_median_spec _ _ H1). cbn.
  rewrite (for_each_Ok clamp _ clamp_nonneg_spec).
  - done.
  - by apply has_columns_with_numeric.
Qed.

Lemma clean_in_order_Ok_inv (cols1 cols2 : list string) (df t : DataFrame) :
  clean_in_order cols1 cols2 df = Ok t ->
  has_columns cols1 df /\ has_columns cols2 df /\
  t = with_numeric df (alter_all clamp cols2 (alter_all impute cols1 (numeric df))).
Proof.
  unfold clean_in_order. intros Hok.
  destruct (for_each fillna_median cols1 df) as [df1|e] eqn:H1; [|done].
  cbn in Hok.
  apply (for_each_Ok_inv impute _ fillna_median_spec) in H1 as [Hc1 ->].
  apply (for_each_Ok_inv clamp _ clamp_nonneg_spec) in Hok as [Hc2 ->].
  split; [done|]. split; [|done].
  unfold has_columns in *. eapply Forall_impl; [exact Hc2|].
  cbn. intros c Hc. by apply alter_all_is_Some in Hc.
Qed.

Lemma cleaner_lookup (df t : DataFrame) (col : string) :
  cleaner df = Ok t -> col ∈ numeric_columns ->
  exists s, numeric df !! col = Some s /\
            numeric t !! col = Some (clamp (impute s)).
Proof.
  intros Hok Hin. apply clean_in_order_Ok_inv in Hok as (Hc & _ & ->).
  unfold has_columns in Hc. rewrite Forall_forall in Hc.
  destruct (Hc _ Hin) as [s Hs]. exists s. split; [done|].
  unfold with_numeric. cbn [numeric].
  rewrite !alter_all_lookup by apply numeric_columns_NoDup.
  destruct (decide (col ∈ numeric_columns)); [|done]. by rewrite Hs.
Qed.

Lemma dropna_idemp (s : Pd.column) : Pd.dropna (Pd.dropna s) = Pd.dropna s.
Proof.
  unfold Pd.dropna. induction s as [|x s IH]; [done|].
  rewrite filter_cons. case_decide as Hx; [|done].
  rewrite filter_cons. rewrite decide_True by done. by rewrite IH.
Qed.

(** The median depends on the non-missing cells only. *)
Lemma median_dropna (s : Pd.column) : Pd.median (Pd.dropna s) = Pd.median s.
Proof. unfold Pd.median. by rewrite dropna_idemp. Qed.

Lemma fillna_lookup (s : Pd.column) (v : float) (i : nat) :
  Pd.fillna s v !! i = (fun x => if is_nan x then v else x) <$> s !! i.
Proof. unfold Pd.fillna. apply list_lookup_fmap. Qed.

Lemma clamp_lookup (s : Pd.column) (i : nat) :
  clamp s !! i = Py.max zero <$> s !! i.
Proof. unfold clamp, Pd.apply. apply list_lookup_fmap. Qed.

(** [max(0, x)] is never missing and never below zero. *)
Lemma max_zero_nonneg (x : float) :
  is_nan (Py.max zero x) = false /\ leb zero (Py.max zero x) = true.
Proof.
  unfold Py.max, gtb. destruct (ltb zero x) eqn:Hx.
  - split; [apply (ltb_not_nan _ _ Hx) | by apply ltb_leb].
  - split; reflexivity.
Qed.

(** [max(0, x)] of a missing cell is [0]. *)
Lemma max_zero_nan (x : float) : is_nan x = true -> Py.max zero x = zero.
Proof. by destruct x. Qed.

(** C2. On every table that has the six numeric columns the cleaner
    returns a table, and in it every cell of each of the six columns is
    present (not NaN) and not below zero, whether it was imputed or was
    there from the start. *)
Theorem C2_cleaner_nonnull_nonneg (df : DataFrame) :
  has_columns numeric_columns df ->
  exists t, cleaner df = Ok t /\
    forall col, col ∈ numeric_columns ->
      exists s, numeric t !! col = Some s /\
        Forall (fun x => is_nan x = false /\ leb zero x = true) s.
Proof.
  intros Hcols. eexists. split; [by apply clean_in_order_Ok|].
  intros col Hin.
  destruct (cleaner_lookup df _ col (clean_in_order_Ok _ _ _ Hcols Hcols) Hin)
    as (s & _ & Ht).
  exists (clamp (impute s)). split; [done|].
  unfold clamp, Pd.apply. apply Forall_fmap, Forall_forall.
  intros x _. apply max_zero_nonneg.
Qed.

Lemma C2_witness :
  has_columns numeric_columns example_raw /\
  exists t, cleaner example_raw = Ok t /\
    forall col, col ∈ numeric_columns ->
      exists s, numeric t !! col = Some s /\
        Forall (fun x => is_nan x = false /\ leb zero x = true) s.
Proof.
  assert (has_columns numeric_columns example_raw) as H
    by (repeat constructor; eexists; reflexivity).
  split; [exact H | exact (C2_cleaner_nonnull_nonneg example_raw H)].
Defined.

(** C3. The imputation loop fills every missing cell of a target column
    with one value, the median of the cells of that column that were
    present before the loop touched it; the other cells are unchanged. *)
Theorem C3_imputation_prefill_median (df : DataFrame) :
  has_columns numeric_columns df ->
  exists df1, for_each fillna_median numeric_columns df = Ok df1 /\
    forall col s, col ∈ numeric_columns -> numeric df !! col = Some s ->
      exists s1, numeric df1 !! col = Some s1 /\
        length s1 = length s /\
        forall i x, s !! i = Some x ->
          s1 !! i = Some (if is_nan x then Pd.median (Pd.dropna s) else x).
Proof.
  intros Hcols. eexists.
  split; [exact (for_each_Ok impute _ fillna_median_spec _ _ Hcols)|].
  intros col s Hin Hs. exists (impute s). split; [|split].
  - unfold with_numeric. cbn [numeric].
    rewrite alter_all_lookup by apply numeric_columns_NoDup.
    destruct (decide (col ∈ numeric_columns)); [|done]. by rewrite Hs.
  - unfold impute, Pd.fillna. apply length_fmap.
  - intros i x Hi. unfold impute. rewrite fillna_lookup, Hi. cbn.
    by rewrite median_dropna.
Qed.

(** The spec's example: in [10, NaN, 20, NaN, 30] both missing cells
    become 20. *)
Lemma C3_witness :
  has_columns numeric_columns example_raw /\
  exists df1, for_each fillna_median numeric_columns example_raw = Ok df1 /\
    numeric df1 !! "PM2.5" =
      Some [of_Z 10; of_Z 20; of_Z 20; of_Z 20; of_Z 30].
Proof.
  assert (has_columns numeric_columns example_raw) as H
    by (repeat constructor; eexists; reflexivity).
  split; [exact H|].
  destruct (C3_imputation_prefill_median example_raw H) as (df1 & Hok & Hcol).
  exists df1. split; [exact Hok|].
  destruct (Hcol "PM2.5" [of_Z 10; nan; of_Z 20; nan; of_Z 30])
    as (s1 & Hs1 & Hlen & Hval); [by left | reflexivity |].
  rewrite Hs1. f_equal. apply list_eq. intros i.
  destruct i as [|[|[|[|[|i]]]]].
  - by rewrite (Hval 0%nat (of_Z 10) eq_refl).
  - by rewrite (Hval 1%nat nan eq_refl).
  - by rewrite (Hval 2%nat (of_Z 20) eq_refl).
  - by rewrite (Hval 3%nat nan eq_refl).
  - by rewrite (Hval 4%nat (of_Z 30) eq_refl).
  - cbn. apply lookup_ge_None_2. rewrite Hlen. cbn. lia.
Defined.

Lemma clean_map_Permutation (cols1 cols2 : list string)
    (m : gmap string Pd.column) :
  cols1 ≡ₚ numeric_columns -> cols2 ≡ₚ numeric_columns ->
  alter_all clamp cols2 (alter_all impute cols1 m) =
  alter_all clamp numeric_columns (alter_all impute numeric_columns m).
Proof.
  intros Hp1 Hp2.
  rewrite (alter_all_Permutation impute numeric_columns cols1 m);
    [|apply numeric_columns_NoDup|done].
  by rewrite (alter_all_Permutation clamp numeric_columns cols2);
    [|apply numeric_columns_NoDup|].
Qed.

(** C9. The cleaner's result does not depend on the order in which the
    six columns are visited: with any two orderings of the column list for
    the two loops, the run returns a table exactly when the script's own
    order does, and it is the same table. *)
Theorem C9_cleaner_column_order (cols1 cols2 : list string) (df : DataFrame) :
  cols1 ≡ₚ numeric_columns -> cols2 ≡ₚ numeric_columns ->
  (forall t, clean_in_order cols1 cols2 df = Ok t <-> cleaner df = Ok t) /\
  (has_columns numeric_columns df ->
   exists t, clean_in_order cols1 cols2 df = Ok t /\ cleaner df = Ok t).
Proof.
  intros Hp1 Hp2.
  assert (forall t, clean_in_order cols1 cols2 df = Ok t <-> cleaner df = Ok t)
    as Hiff.
  { intros t. unfold cleaner. split; intros Hok.
    - apply clean_in_order_Ok_inv in Hok as (H1 & H2 & ->).
      apply (has_columns_Permutation _ _ _ Hp1) in H1.
      rewrite (clean_in_order_Ok _ _ _ H1 H1).
      by rewrite (clean_map_Permutation cols1 cols2).
    - apply clean_in_order_Ok_inv in Hok as (H1 & _ & ->).
      rewrite clean_in_order_Ok;
        [|by apply (has_columns_Permutation _ _ _ Hp1)
         |by apply (has_columns_Permutation _ _ _ Hp2)].
      by rewrite (clean_map_Permutation cols1 cols2). }
  split; [exact Hiff|].
  intros Hcols. eexists. split; [|by apply clean_in_order_Ok].
  apply Hiff. by apply clean_in_order_Ok.
Qed.

Lemma C9_witness :
  reverse numeric_columns ≡ₚ numeric_columns /\
  exists t, clean_in_order (reverse numeric_columns) (reverse numeric_columns)
              example_raw = Ok t /\
            cleaner example_raw = Ok t.
Proof.
  split; [apply reverse_Permutation|].
  apply (C9_cleaner_column_order (reverse numeric_columns)
           (reverse numeric_columns) example_raw);
    [apply reverse_Permutation | apply reverse_Permutation |].
  repeat constructor; eexists; reflexivity.
Defined.

(** ** The median of a column *)

Lemma dropna_nil_iff (s : Pd.column) :
  Pd.dropna s = [] <-> Forall (fun x => is_nan x = true) s.
Proof.
  unfold Pd.dropna. induction s as [|x s IH]; [done|].
  rewrite filter_cons, Forall_cons, <- IH. unfold Pd.notna at 1.
  case_decide as Hx.
  - split; [done|]. intros [Hx' _]. congruence.
  - split; [|by intros [_ ?]]. intros ?. split; [|done].
    by destruct (is_nan x).
Qed.

(** No observation, no median. *)
Lemma median_no_observation (s : Pd.column) :
  Pd.dropna s = [] -> Pd.median s = nan.
Proof. intros Hs. unfold Pd.median. by rewrite Hs. Qed.

Lemma sorted_observations_finite (s : Pd.column) :
  finite_or_missing s ->
  Forall (fun x => is_finite x = true) (merge_sort Pd.fle (Pd.dropna s)).
Proof.
  intros Hs. rewrite merge_sort_Permutation.
  unfold Pd.dropna. apply Forall_forall. intros x Hx.
  apply list_elem_of_filter in Hx as [Hna Hin].
  unfold finite_or_missing in Hs. rewrite Forall_forall in Hs.
  destruct (Hs x Hin) as [?|Hnan]; [done|].
  unfold Pd.notna in Hna. congruence.
Qed.

Lemma finite_not_nan (x : float) : is_finite x = true -> is_nan x = false.
Proof. by destruct x. Qed.

(** With at least one observation, and observations that are all finite,
    the median is a number. *)
Lemma median_not_nan (s : Pd.column) :
  finite_or_missing s -> Pd.dropna s <> [] -> is_nan (Pd.median s) = false.
Proof.
  intros Hfin Hne. pose proof (sorted_observations_finite s Hfin) as Hys.
  assert (length (merge_sort Pd.fle (Pd.dropna s)) <> 0%nat) as Hlen.
  { rewrite merge_sort_Permutation. by destruct (Pd.dropna s). }
  unfold Pd.median. set (ys := merge_sort Pd.fle (Pd.dropna s)) in *.
  rewrite Forall_forall in Hys.
  assert (forall i, (i < length ys)%nat ->
            is_finite (default nan (ys !! i)) = true) as Hget.
  { intros i Hi. destruct (lookup_lt_is_Some_2 ys i Hi) as [y Hy].
    rewrite Hy. cbn. eapply Hys, list_elem_of_lookup_2, Hy. }
  destruct (length ys) as [|n] eqn:Hn; [done|].
  destruct (Nat.odd (S n)) eqn:Hodd.
  - apply finite_not_nan, Hget. apply Nat.div_lt; lia.
  - assert (n <> 0%nat) as Hn0 by (intros ->; done).
    assert ((S n / 2 < S n)%nat) as Hhalf by (apply Nat.div_lt; lia).
    change (of_Z 2) with (S754_finite false 4503599627370496 (-51)).
    apply div_finite_not_nan, add_finite_not_nan; apply Hget; lia.
Qed.

Lemma impute_no_observation (s : Pd.column) : Pd.dropna s = [] -> impute s = s.
Proof.
  intros Hs. unfold impute. rewrite (median_no_observation _ Hs).
  apply dropna_nil_iff in Hs. unfold Pd.fillna.
  induction Hs as [|x s Hx _ IH]; [done|].
  cbn. rewrite Hx. f_equal; [by destruct x | exact IH].
Qed.

Lemma clamp_all_missing (s : Pd.column) :
  Forall (fun x => is_nan x = true) s -> clamp s = replicate (length s) zero.
Proof.
  unfold clamp, Pd.apply. induction 1 as [|x s Hx _ IH]; [done|].
  cbn. rewrite IH. f_equal. by apply max_zero_nan.
Qed.

(** C10 as stated fails on a column that holds both infinities: it has two
    observations, yet its median [(-inf + inf) / 2] is NaN and the missing
    cell is still missing after the imputation loop. *)
Lemma C10_counterexample :
  exists df1 s1,
    for_each fillna_median numeric_columns example_inf = Ok df1 /\
    numeric example_inf !! "PM2.5" = Some [ninf; nan; pinf] /\
    Pd.dropna [ninf; nan; pinf] = [ninf; pinf] /\
    numeric df1 !! "PM2.5" = Some s1 /\
    s1 !! 1%nat = Some nan.
Proof.
  eexists _, _. split; [vm_compute; reflexivity|].
  split; [reflexivity|]. split; [reflexivity|].
  split; [vm_compute; reflexivity|reflexivity].
Qed.

(** C10 (amended). On every table that has the six columns the cleaner
    returns a table, and for each target column:
    - a cell that is still missing after the imputation loop is 0 after
      the clamping loop;
    - a column with no observation is left as it is by the imputation loop
      and comes out of the cleaner as all zeros;
    - in a column whose observations are finite, a cell is still missing
      after the imputation loop only if the column has no observation. *)
Theorem C10_still_missing_becomes_zero (df : DataFrame) :
  has_columns numeric_columns df ->
  exists df1 t,
    for_each fillna_median numeric_columns df = Ok df1 /\
    cleaner df = Ok t /\
    forall col s, col ∈ numeric_columns -> numeric df !! col = Some s ->
      exists s1 s2,
        numeric df1 !! col = Some s1 /\ numeric t !! col = Some s2 /\
        (forall i x, s1 !! i = Some x -> is_nan x = true -> s2 !! i = Some zero) /\
        (Pd.dropna s = [] -> s1 = s /\ s2 = replicate (length s) zero) /\
        (finite_or_missing s ->
         forall i x, s1 !! i = Some x -> is_nan x = true -> Pd.dropna s = []).
Proof.
  intros Hcols. eexists _, _.
  split; [exact (for_each_Ok impute _ fillna_median_spec _ _ Hcols)|].
  split; [by apply clean_in_order_Ok|].
  intros col s Hin Hs. exists (impute s), (clamp (impute s)).
  unfold with_numeric. cbn [numeric].
  rewrite !alter_all_lookup by apply numeric_columns_NoDup.
  destruct (decide (col ∈ numeric_columns)); [|done]. rewrite Hs.
  split; [done|]. split; [done|]. split; [|split].
  - intros i x Hi Hx. rewrite clamp_lookup, Hi. cbn. by rewrite max_zero_nan.
  - intros Hnone. rewrite (impute_no_observation _ Hnone). split; [done|].
    by apply clamp_all_missing, dropna_nil_iff.
  - intros Hfin i x Hi Hx. unfold impute in Hi. rewrite fillna_lookup in Hi.
    destruct (s !! i) as [y|] eqn:Hy; [|done]. cbn in Hi. injection Hi as <-.
    destruct (Pd.dropna s) as [|o os] eqn:Hobs; [done|]. exfalso.
    assert (is_nan (Pd.median s) = false) as Hmed
      by (apply median_not_nan; [done|by rewrite Hobs]).
    destruct (is_nan y) eqn:Hny; congruence.
Qed.

Lemma C10_witness :
  has_columns numeric_columns example_raw /\
  exists df1 t,
    for_each fillna_median numeric_columns example_raw = Ok df1 /\
    cleaner example_raw = Ok t /\
    numeric df1 !! "Humidity" = Some [nan; nan; nan; nan; nan] /\
    numeric t !! "Humidity" = Some [zero; zero; zero; zero; zero].
Proof.
  assert (has_columns numeric_columns example_raw) as H
    by (repeat constructor; eexists; reflexivity).
  split; [exact H|].
  destruct (C10_still_missing_becomes_zero example_raw H)
    as (df1 & t & Hdf1 & Ht & Hcol).
  exists df1, t. split; [exact Hdf1|]. split; [exact Ht|].
  destruct (Hcol "Humidity" [nan; nan; nan; nan; nan])
    as (s1 & s2 & Hs1 & Hs2 & _ & Hnone & _);
    [by do 5 right; left | reflexivity |].
  destruct (Hnone eq_refl) as [-> ->]. by split.
Defined.

(** ** Group keys and their order *)

#[global] Instance Z_cmp_laws : KeyCmpLaws Z.
Proof.
  split; unfold Pd.key_cmp, Pd.Z_cmp.
  - apply Z.compare_eq.
  - intros a b. apply Z.compare_antisym.
  - intros a b c. rewrite !Z.compare_lt_iff. lia.
Qed.

Lemma ascii_compare_trans (a b c : Ascii.ascii) :
  Ascii.compare a b = Lt -> Ascii.compare b c = Lt -> Ascii.compare a c = Lt.
Proof. unfold Ascii.compare. rewrite !N.compare_lt_iff. lia. Qed.

Lemma string_compare_trans (a b c : string) :
  String.compare a b = Lt -> String.compare b c = Lt -> String.compare a c = Lt.
Proof.
  revert b c. induction a as [|x a IH]; intros [|y b] [|z c]; cbn; try done.
  destruct (Ascii.compare x y) eqn:Hxy; try done.
  - apply Ascii.compare_eq_iff in Hxy as ->.
    destruct (Ascii.compare y z); try done. apply IH.
  - destruct (Ascii.compare y z) eqn:Hyz; try done.
    + apply Ascii.compare_eq_iff in Hyz as <-. by rewrite Hxy.
    + by rewrite (ascii_compare_trans _ _ _ Hxy Hyz).
Qed.

#[global] Instance string_cmp_laws : KeyCmpLaws string.
Proof.
  split; unfold Pd.key_cmp, Pd.string_cmp.
  - apply String.compare_eq_iff.
  - intros a b. apply String.compare_antisym.
  - apply string_compare_trans.
Qed.

Section GroupFacts.
Context {K : Type} `{KeyCmpLaws K}.

Lemma key_cmp_refl (a : K) : Pd.key_cmp a a = Eq.
Proof.
  pose proof (key_cmp_antisym a a) as Ha.
  destruct (Pd.key_cmp a a); done.
Qed.

Lemma key_cmp_Gt_lt (a b : K) : Pd.key_cmp a b = Gt -> key_lt b a.
Proof. intros Hab. unfold key_lt. by rewrite key_cmp_antisym, Hab. Qed.

Lemma group_insert_keys (k : K) (v : float) (gs : list (K * Pd.column)) (k' : K) :
  k' ∈ (Pd.group_insert k v gs).*1 -> k' = k \/ k' ∈ gs.*1.
Proof.
  induction gs as [|[k0 vs] gs IH]; cbn.
  - intros ->%list_elem_of_singleton. by left.
  - destruct (Pd.key_cmp k k0) eqn:Hc; cbn.
    + intros Hin. by right.
    + intros [->|Hin]%elem_of_cons; [by left | by right].
    + intros [->|Hin]%elem_of_cons; [right; by left|].
      destruct (IH Hin) as [->|?]; [by left | right; by right].
Qed.

(** Inserting a row keeps the groups in strictly increasing key order. *)
Lemma group_insert_sorted (k : K) (v : float) (gs : list (K * Pd.column)) :
  StronglySorted key_lt gs.*1 ->
  StronglySorted key_lt (Pd.group_insert k v gs).*1.
Proof.
  induction gs as [|[k0 vs] gs IH]; cbn; intros Hs.
  - repeat constructor.
  - apply StronglySorted_cons in Hs as [Hall Hs].
    destruct (Pd.key_cmp k k0) eqn:Hc; cbn.
    + by constructor.
    + constructor; [by constructor|]. constructor; [done|].
      eapply Forall_impl; [exact Hall|]. intros k1 Hk1.
      by apply key_cmp_trans with k0.
    + constructor; [by apply IH|]. apply Forall_forall. intros k1 Hk1.
      destruct (group_insert_keys _ _ _ _ Hk1) as [->|Hin].
      * by apply key_cmp_Gt_lt.
      * rewrite Forall_forall in Hall. by apply Hall.
Qed.

Lemma groups_sorted (keys : list K) (vals : Pd.column) :
  StronglySorted key_lt (Pd.groups keys vals).*1.
Proof.
  unfold Pd.groups.
  assert (StronglySorted key_lt (@nil (K * Pd.column)).*1) as Hnil by constructor.
  revert Hnil. generalize (@nil (K * Pd.column)).
  induction (zip keys vals) as [|[k v] kvs IH]; intros gs Hgs; [done|].
  cbn. by apply IH, group_insert_sorted.
Qed.

(** [groupby(...).mean()] lists each key once, in increasing order. *)
Lemma groupby_mean_sorted (keys : list K) (vals : Pd.column) :
  StronglySorted key_lt (Pd.groupby_mean keys vals).*1.
Proof.
  unfold Pd.groupby_mean. rewrite <- list_fmap_compose.
  apply groups_sorted.
Qed.
End GroupFacts.

(** ** Extrema of a series *)

Section ExtremaFacts.
Context {K : Type}.
Implicit Types (s : Pd.series K) (best kv : K * float).

Lemma fill_ninf_no_na s : no_na s -> Pd.fill_with Pd.fill_ninf s = s.
Proof.
  unfold Pd.fill_with, Pd.fill_ninf. induction 1 as [|[k v] s Hv _ IH]; [done|].
  cbn in *. by rewrite Hv, IH.
Qed.

Lemma fill_pinf_no_na s : no_na s -> Pd.fill_with Pd.fill_pinf s = s.
Proof.
  unfold Pd.fill_with, Pd.fill_pinf. induction 1 as [|[k v] s Hv _ IH]; [done|].
  cbn in *. by rewrite Hv, IH.
Qed.

Lemma all_na_no_na kv s : no_na (kv :: s) -> Pd.all_na (kv :: s) = false.
Proof. intros [Hv _]%Forall_cons. cbn. by rewrite Hv. Qed.

(** The running maximum ends on the first position that holds the
    largest value: everything before it is strictly smaller, everything
    after it is not larger. *)
Lemma argmax_from_spec best s :
  is_nan best.2 = false -> no_na s ->
  leb best.2 (Pd.argmax_from best s).2 = true /\
  exists l1 l2,
    best :: s = l1 ++ Pd.argmax_from best s :: l2 /\
    Forall (fun kv => ltb kv.2 (Pd.argmax_from best s).2 = true) l1 /\
    Forall (fun kv => leb kv.2 (Pd.argmax_from best s).2 = true) l2.
Proof.
  intros Hb Hs. revert best Hb.
  induction Hs as [|kv s Hkv Hs IH]; intros best Hb.
  - cbn. split; [by apply leb_refl|]. by exists [], [].
  - cbn [Pd.argmax_from]. unfold gtb.
    destruct (ltb best.2 kv.2) eqn:Hlt.
    + destruct (IH kv Hkv) as (Hle & l1 & l2 & Heq & H1 & H2).
      split; [by apply ltb_leb, ltb_leb_trans with kv.2|].
      exists (best :: l1), l2. split; [by rewrite Heq|]. split; [|done].
      constructor; [|done]. by apply ltb_leb_trans with kv.2.
    + pose proof (not_ltb_leb _ _ Hb Hkv Hlt) as Hkb.
      destruct (IH best Hb) as (Hle & l1 & l2 & Heq & H1 & H2).
      split; [done|]. destruct l1 as [|x l1].
      * injection Heq as Hr Hs'. exists [], (kv :: l2).
        split; [cbn; by rewrite <- Hr, Hs'|]. split; [done|].
        constructor; [by rewrite <- Hr|done].
      * injection Heq as <- Hs'. apply Forall_cons in H1 as [Hbr H1].
        exists (best :: kv :: l1), l2. split; [cbn; do 2 f_equal; exact Hs'|].
        split; [|done]. constructor; [done|]. constructor; [|done].
        by apply leb_ltb_trans with best.2.
Qed.

Lemma argmin_from_spec best s :
  is_nan best.2 = false -> no_na s ->
  leb (Pd.argmin_from best s).2 best.2 = true /\
  exists l1 l2,
    best :: s = l1 ++ Pd.argmin_from best s :: l2 /\
    Forall (fun kv => ltb (Pd.argmin_from best s).2 kv.2 = true) l1 /\
    Forall (fun kv => leb (Pd.argmin_from best s).2 kv.2 = true) l2.
Proof.
  intros Hb Hs. revert best Hb.
  induction Hs as [|kv s Hkv Hs IH]; intros best Hb.
  - cbn. split; [by apply leb_refl|]. by exists [], [].
  - cbn [Pd.argmin_from].
    destruct (ltb kv.2 best.2) eqn:Hlt.
    + destruct (IH kv Hkv) as (Hle & l1 & l2 & Heq & H1 & H2).
      split; [by apply ltb_leb, leb_ltb_trans with kv.2|].
      exists (best :: l1), l2. split; [by rewrite Heq|]. split; [|done].
      constructor; [|done]. by apply leb_ltb_trans with kv.2.
    + pose proof (not_ltb_leb _ _ Hkv Hb Hlt) as Hkb.
      destruct (IH best Hb) as (Hle & l1 & l2 & Heq & H1 & H2).
      split; [done|]. destruct l1 as [|x l1].
      * injection Heq as Hr Hs'. exists [], (kv :: l2).
        split; [cbn; by rewrite <- Hr, Hs'|]. split; [done|].
        constructor; [by rewrite <- Hr|done].
      * injection Heq as <- Hs'. apply Forall_cons in H1 as [Hbr H1].
        exists (best :: kv :: l1), l2. split; [cbn; do 2 f_equal; exact Hs'|].
        split; [|done]. constructor; [done|]. constructor; [|done].
        by apply ltb_leb_trans with best.2.
Qed.

Lemma argmax_from_not_nan best s :
  is_nan best.2 = false -> no_na s -> is_nan (Pd.argmax_from best s).2 = false.
Proof.
  intros Hb Hs. destruct (argmax_from_spec best s Hb Hs) as [Hle _].
  apply (leb_not_nan _ _ Hle).
Qed.

Lemma argmin_from_not_nan best s :
  is_nan best.2 = false -> no_na s -> is_nan (Pd.argmin_from best s).2 = false.
Proof.
  intros Hb Hs. destruct (argmin_from_spec best s Hb Hs) as [Hle _].
  apply (leb_not_nan _ _ Hle).
Qed.

(** [argmax] and [maximum.reduce] pick the same element. *)
Lemma argmax_from_maximum best s :
  is_nan best.2 = false -> no_na s ->
  (Pd.argmax_from best s).2 = foldl Pd.maximum best.2 s.*2.
Proof.
  intros Hb Hs. revert best Hb.
  induction Hs as [|kv s Hkv Hs IH]; intros best Hb; [done|].
  cbn. unfold gtb, Pd.maximum at 2.
  rewrite (ltb_negb_leb kv.2 best.2 Hkv Hb).
  destruct (leb kv.2 best.2); cbn; by rewrite IH.
Qed.

Lemma argmin_from_minimum best s :
  is_nan best.2 = false -> no_na s ->
  (Pd.argmin_from best s).2 = foldl Pd.minimum best.2 s.*2.
Proof.
  intros Hb Hs. revert best Hb.
  induction Hs as [|kv s Hkv Hs IH]; intros best Hb; [done|].
  cbn. unfold Pd.minimum at 2.
  rewrite (ltb_negb_leb best.2 kv.2 Hb Hkv).
  destruct (leb best.2 kv.2); cbn; by rewrite IH.
Qed.
End ExtremaFacts.

Section FirstTied.
Context {K : Type} `{KeyCmpLaws K}.
Implicit Types s : Pd.series K.

Lemma idxmax_first_tied s :
  s <> [] -> no_na s -> StronglySorted key_lt s.*1 ->
  exists k v,
    Pd.idxmax s = Ok (Some k) /\ Pd.max s = v /\ (k, v) ∈ s /\
    (forall k' v', (k', v') ∈ s -> leb v' v = true) /\
    (forall k' v', (k', v') ∈ s -> leb v v' = true -> Pd.key_cmp k k' <> Gt).
Proof.
  destruct s as [|kv0 s']; [done|]. intros _ Hna Hsorted.
  pose proof Hna as [Hkv0 Hs']%Forall_cons.
  destruct (argmax_from_spec kv0 s' Hkv0 Hs') as (Hle & l1 & l2 & Heq & H1 & H2).
  pose proof (argmax_from_not_nan kv0 s' Hkv0 Hs') as Hr.
  pose proof (argmax_from_maximum kv0 s' Hkv0 Hs') as Hmax.
  set (r := Pd.argmax_from kv0 s') in *.
  rewrite Forall_forall in H1, H2.
  exists r.1, r.2. split; [|split; [|split; [|split]]].
  - unfold Pd.idxmax. rewrite fill_ninf_no_na by done.
    by rewrite all_na_no_na by done.
  - unfold Pd.max. rewrite fill_ninf_no_na by done.
    cbn [fmap list_fmap]. by rewrite all_na_no_na by done.
  - rewrite Heq, <- surjective_pairing. apply elem_of_app. right. by left.
  - intros k' v'. rewrite Heq.
    intros [Hin|[Hkv|Hin]%elem_of_cons]%elem_of_app.
    + apply ltb_leb, (H1 _ Hin).
    + rewrite <- Hkv in Hr |- *. by apply leb_refl.
    + apply (H2 _ Hin).
  - intros k' v'. rewrite Heq.
    intros [Hin|[Hkv|Hin]%elem_of_cons]%elem_of_app Htie.
    + apply H1 in Hin. cbn in Hin. apply ltb_leb_false in Hin. congruence.
    + rewrite <- Hkv. cbn. by rewrite key_cmp_refl.
    + rewrite Heq, fmap_app, fmap_cons in Hsorted.
      apply StronglySorted_app_1_r, StronglySorted_cons in Hsorted as [Hall _].
      rewrite Forall_forall in Hall.
      assert (key_lt r.1 k') as Hlt
        by (apply Hall, list_elem_of_fmap; by exists (k', v')).
      unfold key_lt in Hlt. by rewrite Hlt.
Qed.

Lemma idxmin_first_tied s :
  s <> [] -> no_na s -> StronglySorted key_lt s.*1 ->
  exists k v,
    Pd.idxmin s = Ok (Some k) /\ Pd.min s = v /\ (k, v) ∈ s /\
    (forall k' v', (k', v') ∈ s -> leb v v' = true) /\
    (forall k' v', (k', v') ∈ s -> leb v' v = true -> Pd.key_cmp k k' <> Gt).
Proof.
  destruct s as [|kv0 s']; [done|]. intros _ Hna Hsorted.
  pose proof Hna as [Hkv0 Hs']%Forall_cons.
  destruct (argmin_from_spec kv0 s' Hkv0 Hs') as (Hle & l1 & l2 & Heq & H1 & H2).
  pose proof (argmin_from_not_nan kv0 s' Hkv0 Hs') as Hr.
  pose proof (argmin_from_minimum kv0 s' Hkv0 Hs') as Hmin.
  set (r := Pd.argmin_from kv0 s') in *.
  rewrite Forall_forall in H1, H2.
  exists r.1, r.2. split; [|split; [|split; [|split]]].
  - unfold Pd.idxmin. rewrite fill_pinf_no_na by done.
    by rewrite all_na_no_na by done.
  - unfold Pd.min. rewrite fill_pinf_no_na by done.
    cbn [fmap list_fmap]. by rewrite all_na_no_na by done.
  - rewrite Heq, <- surjective_pairing. apply elem_of_app. right. by left.
  - intros k' v'. rewrite Heq.
    intros [Hin|[Hkv|Hin]%elem_of_cons]%elem_of_app.
    + apply ltb_leb, (H1 _ Hin).
    + rewrite <- Hkv in Hr |- *. by apply leb_refl.
    + apply (H2 _ Hin).
  - intros k' v'. rewrite Heq.
    intros [Hin|[Hkv|Hin]%elem_of_cons]%elem_of_app Htie.
    + apply H1 in Hin. cbn in Hin. apply ltb_leb_false in Hin. congruence.
    + rewrite <- Hkv. cbn. by rewrite key_cmp_refl.
    + rewrite Heq, fmap_app, fmap_cons in Hsorted.
      apply StronglySorted_app_1_r, StronglySorted_cons in Hsorted as [Hall _].
      rewrite Forall_forall in Hall.
      assert (key_lt r.1 k') as Hlt
        by (apply Hall, list_elem_of_fmap; by exists (k', v')).
      unfold key_lt in Hlt. by rewrite Hlt.
Qed.
End FirstTied.

(** *** Missing means count as the worst value

    [idxmax] and [max] see a missing mean as -inf, [idxmin] and [min] as
    +inf; the label is taken from the filled series. *)

Section Filled.
Context {K : Type} `{KeyCmpLaws K}.
Implicit Types s : Pd.series K.

Lemma fill_with_keys (f : float -> float) s : (Pd.fill_with f s).*1 = s.*1.
Proof. unfold Pd.fill_with. rewrite <- list_fmap_compose. by apply list_fmap_ext. Qed.

Lemma elem_of_fill_with (f : float -> float) s (k : K) (v : float) :
  (k, v) ∈ Pd.fill_with f s <-> exists v0, (k, v0) ∈ s /\ v = f v0.
Proof.
  unfold Pd.fill_with. rewrite list_elem_of_fmap. split.
  - intros ([k0 v0] & [= -> ->] & Hin). by exists v0.
  - intros (v0 & Hin & ->). by exists (k, v0).
Qed.

Lemma fill_ninf_filled s : no_na (Pd.fill_with Pd.fill_ninf s).
Proof.
  unfold no_na, Pd.fill_with. apply Forall_fmap, Forall_forall.
  intros [k v] _. cbn. unfold Pd.fill_ninf. by destruct (is_nan v) eqn:Hv.
Qed.

Lemma fill_pinf_filled s : no_na (Pd.fill_with Pd.fill_pinf s).
Proof.
  unfold no_na, Pd.fill_with. apply Forall_fmap, Forall_forall.
  intros [k v] _. cbn. unfold Pd.fill_pinf. by destruct (is_nan v) eqn:Hv.
Qed.

Lemma idxmax_of_filled s :
  Pd.all_na s = false ->
  Pd.idxmax s = Pd.idxmax (Pd.fill_with Pd.fill_ninf s) /\
  Pd.max s = Pd.max (Pd.fill_with Pd.fill_ninf s).
Proof.
  intros Hna. pose proof (fill_ninf_filled s) as Hfilled.
  unfold Pd.idxmax, Pd.max. rewrite !(fill_ninf_no_na _ Hfilled), Hna.
  destruct (Pd.fill_with Pd.fill_ninf s) as [|kv r] eqn:Hs; [done|].
  by rewrite (all_na_no_na kv r Hfilled).
Qed.

Lemma idxmin_of_filled s :
  Pd.all_na s = false ->
  Pd.idxmin s = Pd.idxmin (Pd.fill_with Pd.fill_pinf s) /\
  Pd.min s = Pd.min (Pd.fill_with Pd.fill_pinf s).
Proof.
  intros Hna. pose proof (fill_pinf_filled s) as Hfilled.
  unfold Pd.idxmin, Pd.min. rewrite !(fill_pinf_no_na _ Hfilled), Hna.
  destruct (Pd.fill_with Pd.fill_pinf s) as [|kv r] eqn:Hs; [done|].
  by rewrite (all_na_no_na kv r Hfilled).
Qed.

(** With at least one mean present, [idxmax] returns the first key at
    which the filled series is largest, and [max] that largest value. *)
Lemma idxmax_filled s :
  s <> [] -> Pd.all_na s = false -> StronglySorted key_lt s.*1 ->
  exists k v0,
    Pd.idxmax s = Ok (Some k) /\ (k, v0) ∈ s /\ Pd.max s = Pd.fill_ninf v0 /\
    (forall k' v', (k', v') ∈ s -> leb (Pd.fill_ninf v') (Pd.max s) = true) /\
    (forall k' v', (k', v') ∈ s ->
       leb (Pd.max s) (Pd.fill_ninf v') = true -> Pd.key_cmp k k' <> Gt).
Proof.
  intros Hne Hna Hsorted. destruct (idxmax_of_filled s Hna) as [-> ->].
  destruct (idxmax_first_tied (Pd.fill_with Pd.fill_ninf s))
    as (k & v & Hidx & Hmax & Hin & Hle & Htie).
  - by destruct s.
  - apply fill_ninf_filled.
  - by rewrite fill_with_keys.
  - apply elem_of_fill_with in Hin as (v0 & Hin & Hv).
    exists k, v0. rewrite Hmax. split_and!; [done..| |].
    + intros k' v' Hin'. apply (Hle k'), elem_of_fill_with. by exists v'.
    + intros k' v' Hin'. apply Htie, elem_of_fill_with. by exists v'.
Qed.

Lemma idxmin_filled s :
  s <> [] -> Pd.all_na s = false -> StronglySorted key_lt s.*1 ->
  exists k v0,
    Pd.idxmin s = Ok (Some k) /\ (k, v0) ∈ s /\ Pd.min s = Pd.fill_pinf v0 /\
    (forall k' v', (k', v') ∈ s -> leb (Pd.min s) (Pd.fill_pinf v') = true) /\
    (forall k' v', (k', v') ∈ s ->
       leb (Pd.fill_pinf v') (Pd.min s) = true -> Pd.key_cmp k k' <> Gt).
Proof.
  intros Hne Hna Hsorted. destruct (idxmin_of_filled s Hna) as [-> ->].
  destruct (idxmin_first_tied (Pd.fill_with Pd.fill_pinf s))
    as (k & v & Hidx & Hmin & Hin & Hle & Htie).
  - by destruct s.
  - apply fill_pinf_filled.
  - by rewrite fill_with_keys.
  - apply elem_of_fill_with in Hin as (v0 & Hin & Hv).
    exists k, v0. rewrite Hmin. split_and!; [done..| |].
    + intros k' v' Hin'. apply (Hle k'), elem_of_fill_with. by exists v'.
    + intros k' v' Hin'. apply Htie, elem_of_fill_with. by exists v'.
Qed.

(** With every mean missing, the label and the value are missing too. *)
Lemma idxmax_all_na s :
  s <> [] -> Pd.all_na s = true ->
  Pd.idxmax s = Ok None /\ Pd.max s = nan /\
  Pd.idxmin s = Ok None /\ Pd.min s = nan.
Proof.
  intros Hne Hna. unfold Pd.idxmax, Pd.max, Pd.idxmin, Pd.min. rewrite Hna.
  by destruct s.
Qed.
End Filled.

(** ** Cleaned cells *)

Lemma max_zero_signed (x : float) : signed false (Py.max zero x).
Proof.
  unfold Py.max, gtb. destruct (ltb zero x) eqn:Hx; [|by left].
  destruct x as [s|[]| |[] m e]; try done; [right; by left | right; right; by eauto].
Qed.

(** ** Station-wise and time-series queries *)

(** C6 as stated fails. The table [example_overflow] is a cleaned table;
    its per-station O3 means are NaN for station A (the compensated sum of
    three readings of 1e308 is NaN) and +inf for stations B and C. The
    smallest mean is +inf, attained by B and C, but [idxmin] returns A,
    whose mean is missing. In the same way [idxmax] of the grouped means
    A: NaN, B: -inf, C: -inf returns A while the largest mean is -inf. *)
Lemma C6_counterexample :
  cleaner example_overflow = Ok example_overflow /\
  avg_o3_by_station example_overflow = Ok [("A", nan); ("B", pinf); ("C", pinf)] /\
  lowest_o3_value example_overflow = Ok pinf /\
  lowest_o3_station example_overflow = Ok (Some "A") /\
  Pd.groupby_mean ["A"; "B"; "C"] [nan; ninf; ninf] =
    [("A", nan); ("B", ninf); ("C", ninf)] /\
  Pd.max [("A", nan); ("B", ninf); ("C", ninf)] = ninf /\
  Pd.idxmax [("A", nan); ("B", ninf); ("C", ninf)] = Ok (Some "A").
Proof. split_and!; vm_compute; reflexivity. Qed.

(** C6 (amended). In a series of grouped means with at least one mean
    present, a missing mean counts as -inf for [idxmax] and [max] and as
    +inf for [idxmin] and [min]. [idxmax] returns a key that holds the
    largest mean so counted, [max] returns that mean, and every key whose
    mean ties with it comes no earlier in key order: the first tied key
    in key-sorted order wins. The same holds for [idxmin] and [min] with
    the smallest mean. When no mean is missing the key returned holds
    the extreme value itself. On the spec's example, the groups
    A: [10, 20] and B: [30] have means A: 15 and B: 30, with argmax B and
    maximum 30. *)
Theorem C6_argmax_argmin_first_tied_key {K : Type} `{KeyCmpLaws K}
    (keys : list K) (vals : Pd.column) :
  let s := Pd.groupby_mean keys vals in
  s <> [] -> Pd.all_na s = false ->
  (exists k v0,
     Pd.idxmax s = Ok (Some k) /\ (k, v0) ∈ s /\ Pd.max s = Pd.fill_ninf v0 /\
     (forall k' v', (k', v') ∈ s -> leb (Pd.fill_ninf v') (Pd.max s) = true) /\
     (forall k' v', (k', v') ∈ s ->
        leb (Pd.max s) (Pd.fill_ninf v') = true -> Pd.key_cmp k k' <> Gt)) /\
  (exists k v0,
     Pd.idxmin s = Ok (Some k) /\ (k, v0) ∈ s /\ Pd.min s = Pd.fill_pinf v0 /\
     (forall k' v', (k', v') ∈ s -> leb (Pd.min s) (Pd.fill_pinf v') = true) /\
     (forall k' v', (k', v') ∈ s ->
        leb (Pd.fill_pinf v') (Pd.min s) = true -> Pd.key_cmp k k' <> Gt)) /\
  (no_na s ->
   (exists k,
      Pd.idxmax s = Ok (Some k) /\ (k, Pd.max s) ∈ s /\
      (forall k' v', (k', v') ∈ s -> leb v' (Pd.max s) = true) /\
      (forall k' v', (k', v') ∈ s ->
         leb (Pd.max s) v' = true -> Pd.key_cmp k k' <> Gt)) /\
   (exists k,
      Pd.idxmin s = Ok (Some k) /\ (k, Pd.min s) ∈ s /\
      (forall k' v', (k', v') ∈ s -> leb (Pd.min s) v' = true) /\
      (forall k' v', (k', v') ∈ s ->
         leb v' (Pd.min s) = true -> Pd.key_cmp k k' <> Gt))) /\
  Pd.groupby_mean ["A"; "A"; "B"] [of_Z 10; of_Z 20; of_Z 30] =
    [("A", of_Z 15); ("B", of_Z 30)] /\
  Pd.idxmax [("A", of_Z 15); ("B", of_Z 30)] = Ok (Some "B") /\
  Pd.max [("A", of_Z 15); ("B", of_Z 30)] = of_Z 30.
Proof.
  intros s Hne Hna.
  assert (StronglySorted key_lt s.*1) as Hsorted by apply groupby_mean_sorted.
  split_and!.
  - by apply idxmax_filled.
  - by apply idxmin_filled.
  - intros Hno. split.
    + destruct (idxmax_first_tied s Hne Hno Hsorted)
        as (k & v & Hidx & <- & Hin & Hle & Htie).
      by exists k.
    + destruct (idxmin_first_tied s Hne Hno Hsorted)
        as (k & v & Hidx & <- & Hin & Hle & Htie).
      by exists k.
  - vm_compute. reflexivity.
  - vm_compute. reflexivity.
  - vm_compute. reflexivity.
Qed.

(** Stations C and B tie on the largest mean, 30, and the mean of station
    D is missing: the argmax is B, the argmin is A. *)
Lemma C6_witness :
  Pd.groupby_mean ["C"; "B"; "A"; "A"; "D"]
    [of_Z 30; of_Z 30; of_Z 10; of_Z 20; nan] =
    [("A", of_Z 15); ("B", of_Z 30); ("C", of_Z 30); ("D", nan)] /\
  exists k k',
    Pd.idxmax (Pd.groupby_mean ["C"; "B"; "A"; "A"; "D"]
                 [of_Z 30; of_Z 30; of_Z 10; of_Z 20; nan]) = Ok (Some k) /\
    Pd.idxmin (Pd.groupby_mean ["C"; "B"; "A"; "A"; "D"]
                 [of_Z 30; of_Z 30; of_Z 10; of_Z 20; nan]) = Ok (Some k') /\
    k = "B" /\ k' = "A".
Proof.
  split; [vm_compute; reflexivity|].
  destruct (C6_argmax_argmin_first_tied_key
              ["C"; "B"; "A"; "A"; "D"] [of_Z 30; of_Z 30; of_Z 10; of_Z 20; nan])
    as ((k & v0 & Hidx & _) & (k' & v0' & Hidx' & _) & _).
  - vm_compute. discriminate.
  - vm_compute. reflexivity.
  - exists k, k'. split; [exact Hidx|]. split; [exact Hidx'|].
    vm_compute in Hidx, Hidx'. injection Hidx as <-. injection Hidx' as <-.
    by split.
Defined.

(** C7. When station S003's daily PM2.5 means are 55 on the first day and
    48 on the second, the days above the threshold 50 are exactly one
    entry: the first day, with 55. *)
Theorem C7_days_exceeding_threshold (df : DataFrame) (day1 day2 : Z) :
  daily_avg_pm25_s003 df = Ok [(day1, of_Z 55); (day2, of_Z 48)] ->
  days_exceeding_threshold df = Ok [(day1, of_Z 55)].
Proof.
  intros Hdaily. unfold days_exceeding_threshold. by rewrite Hdaily.
Qed.

Lemma C7_witness :
  daily_avg_pm25_s003 example_two_days = Ok [(0, of_Z 55); (1, of_Z 48)] /\
  days_exceeding_threshold example_two_days = Ok [(0, of_Z 55)].
Proof.
  split; [reflexivity|].
  apply (C7_days_exceeding_threshold example_two_days 0 1). reflexivity.
Defined.

(** C8 as stated fails: with no row for station S001 the hourly series is
    empty and the peak-hour query raises. *)
Lemma C8_counterexample :
  Pd.select (station_s001_first_day_mask example_other_station)
    (Timestamp example_other_station) = [] /\
  hourly_pm25_s001 example_other_station = Ok [] /\
  peak_hour_pm25 example_other_station =
    Raise (ValueError "attempt to get argmax of an empty sequence").
Proof. repeat split; reflexivity. Qed.

(** C8 (amended). Over zero matching rows the grouped or resampled mean is
    the empty series, a threshold filter over it is empty and its [max] is
    NaN, none of which raises; [idxmax] of it raises [ValueError]. For the
    script: with no row of station S001 on the first day, the hourly
    series is empty, the peak value is NaN and the peak-hour query raises;
    with no row of station S003 the daily means and the days above the
    threshold are empty. *)
Theorem C8_empty_selection (df : DataFrame) (pm25 : Pd.column) :
  numeric df !! "PM2.5" = Some pm25 ->
  (Pd.select (station_s001_first_day_mask df) (Timestamp df) = [] ->
   hourly_pm25_s001 df = Ok [] /\
   peak_pm25_value df = Ok nan /\
   peak_hour_pm25 df =
     Raise (ValueError "attempt to get argmax of an empty sequence")) /\
  (Pd.select (station_mask df specific_station_id) (Timestamp df) = [] ->
   daily_avg_pm25_s003 df = Ok [] /\
   days_exceeding_threshold df = Ok []).
Proof.
  intros Hcol. split; intros Hnone.
  - assert (hourly_pm25_s001 df = Ok []) as Hh.
    { unfold hourly_pm25_s001, getitem. rewrite Hcol. cbn. by rewrite Hnone. }
    split; [done|]. unfold peak_pm25_value, peak_hour_pm25. by rewrite Hh.
  - assert (daily_avg_pm25_s003 df = Ok []) as Hd.
    { unfold daily_avg_pm25_s003, getitem. rewrite Hcol. cbn. by rewrite Hnone. }
    split; [done|]. unfold days_exceeding_threshold. by rewrite Hd.
Qed.

Lemma C8_witness :
  numeric example_other_station !! "PM2.5" = Some [of_Z 12; of_Z 40] /\
  Pd.select (station_s001_first_day_mask example_other_station)
    (Timestamp example_other_station) = [] /\
  Pd.select (station_mask example_other_station specific_station_id)
    (Timestamp example_other_station) = [] /\
  peak_pm25_value example_other_station = Ok nan /\
  days_exceeding_threshold example_other_station = Ok [].
Proof.
  split; [reflexivity|]. split; [reflexivity|]. split; [reflexivity|].
  destruct (C8_empty_selection example_other_station [of_Z 12; of_Z 40] eq_refl)
    as [Hs001 Hs003].
  destruct (Hs001 eq_refl) as (_ & Hpeak & _).
  destruct (Hs003 eq_refl) as (_ & Hdays).
  by split.
Defined.

(** * Further properties of the script *)

(** ** The cleaner: what it keeps, when it raises *)

(** A clamped column is a fixed point of both loop bodies. *)
Lemma max_zero_fixed (x : float) : signed false x -> Py.max zero x = x.
Proof. by intros [->|[->|(m & e & ->)]]. Qed.

Lemma clamp_fixed (c : Pd.column) : Forall (signed false) c -> clamp c = c.
Proof.
  unfold clamp, Pd.apply. induction 1 as [|x c Hx _ IH]; [done|].
  cbn. by rewrite IH, max_zero_fixed.
Qed.

Lemma fillna_no_missing (c : Pd.column) (v : float) :
  Forall (fun x => is_nan x = false) c -> Pd.fillna c v = c.
Proof.
  unfold Pd.fillna. induction 1 as [|x c Hx _ IH]; [done|].
  cbn. by rewrite IH, Hx.
Qed.

Lemma impute_fixed (c : Pd.column) : Forall (signed false) c -> impute c = c.
Proof.
  intros Hc. apply fillna_no_missing. eapply Forall_impl; [exact Hc|].
  intros x. apply signed_not_nan.
Qed.

Lemma clamp_signed (c : Pd.column) : Forall (signed false) (clamp c).
Proof.
  unfold clamp, Pd.apply. apply Forall_fmap, Forall_forall.
  intros x _. apply max_zero_signed.
Qed.

(** Every numeric column, cleaned or not, keeps its number of rows. *)
Lemma cleaner_column_length (df t : DataFrame) (col : string) (s : Pd.column) :
  cleaner df = Ok t -> numeric df !! col = Some s ->
  exists s', numeric t !! col = Some s' /\ length s' = length s.
Proof.
  intros Hok Hs. apply clean_in_order_Ok_inv in Hok as (_ & _ & ->).
  unfold with_numeric. cbn [numeric].
  rewrite !alter_all_lookup by apply numeric_columns_NoDup.
  destruct (decide (col ∈ numeric_columns)); rewrite Hs; cbn.
  - eexists. split; [done|].
    unfold clamp, Pd.apply, impute, Pd.fillna. by rewrite !length_fmap.
  - by eexists.
Qed.

(** X1. The cleaner changes nothing but the cells of the six columns: the
    station and timestamp columns and every other numeric column are the
    same afterwards, and each numeric column keeps its number of rows. *)
Theorem cleaner_preserves_shape (df t : DataFrame) :
  cleaner df = Ok t ->
  Station_ID t = Station_ID df /\
  Timestamp t = Timestamp df /\
  (forall col, col ∉ numeric_columns -> numeric t !! col = numeric df !! col) /\
  (forall col s, numeric df !! col = Some s ->
     exists s', numeric t !! col = Some s' /\ length s' = length s).
Proof.
  intros Hok. split_and!.
  - by apply clean_in_order_Ok_inv in Hok as (_ & _ & ->).
  - by apply clean_in_order_Ok_inv in Hok as (_ & _ & ->).
  - intros col Hcol. apply clean_in_order_Ok_inv in Hok as (_ & _ & ->).
    unfold with_numeric. cbn [numeric].
    rewrite !alter_all_lookup by apply numeric_columns_NoDup.
    by destruct (decide (col ∈ numeric_columns)).
  - intros col s. by apply cleaner_column_length.
Qed.

Lemma cleaner_preserves_shape_witness :
  exists t, cleaner example_raw = Ok t /\
    Station_ID t = Station_ID example_raw /\
    Timestamp t = Timestamp example_raw.
Proof.
  eexists. split; [vm_compute; reflexivity|].
  split; eapply cleaner_preserves_shape; vm_compute; reflexivity.
Defined.

Lemma has_columns_with_numeric_alter (f : Pd.column -> Pd.column)
    (cols : list string) (c : string) (df : DataFrame) :
  has_columns cols df ->
  has_columns cols (with_numeric df (alter f c (numeric df))).
Proof.
  unfold has_columns. intros Hall. eapply Forall_impl; [exact Hall|].
  cbn. intros c' Hc'. by apply lookup_alter_is_Some.
Qed.

Section FirstMissing.
Variable f : Pd.column -> Pd.column.
Variable body : DataFrame -> string -> result DataFrame.
Hypothesis body_spec : forall df col,
  body df col = (s ← getitem df col; Ok (setitem df col (f s))).

(** The loop stops at the first column that is not there. *)
Lemma for_each_first_missing (l1 l2 : list string) (c : string) (df : DataFrame) :
  has_columns l1 df -> numeric df !! c = None ->
  for_each body (l1 ++ c :: l2) df = Raise (KeyError c).
Proof.
  revert df. induction l1 as [|c1 l1 IH]; intros df Hl1 Hc; cbn.
  - by rewrite (body_None f body body_spec _ _ Hc).
  - apply Forall_cons in Hl1 as [[s Hs] Hl1].
    rewrite (body_Some f body body_spec _ _ _ Hs). cbn. apply IH.
    + by apply has_columns_with_numeric_alter.
    + cbn. apply eq_None_not_Some. intros Hsome.
      apply lookup_alter_is_Some in Hsome. rewrite Hc in Hsome.
      by destruct Hsome.
Qed.
End FirstMissing.

(** X2. When a target column is absent the cleaner raises [KeyError] for
    the first absent column in the order of the script's list, during the
    imputation loop, and returns no table. *)
Theorem cleaner_first_missing_column (l1 l2 : list string) (c : string)
    (df : DataFrame) :
  numeric_columns = l1 ++ c :: l2 ->
  has_columns l1 df -> numeric df !! c = None ->
  for_each fillna_median numeric_columns df = Raise (KeyError c) /\
  cleaner df = Raise (KeyError c).
Proof.
  intros Hcols Hl1 Hc.
  assert (for_each fillna_median numeric_columns df = Raise (KeyError c)) as Hloop.
  { rewrite Hcols.
    by apply (for_each_first_missing impute _ fillna_median_spec). }
  split; [done|]. unfold cleaner, clean_in_order. by rewrite Hloop.
Qed.

Lemma cleaner_first_missing_column_witness :
  numeric_columns = ["PM2.5"] ++ "PM10" :: ["O3"; "NO2"; "Temperature"; "Humidity"] /\
  has_columns ["PM2.5"] example_missing_columns /\
  numeric example_missing_columns !! "PM10" = None /\
  cleaner example_missing_columns = Raise (KeyError "PM10").
Proof.
  assert (has_columns ["PM2.5"] example_missing_columns) as H
    by (repeat constructor; eexists; reflexivity).
  split; [reflexivity|]. split; [exact H|]. split; [reflexivity|].
  apply (cleaner_first_missing_column ["PM2.5"]
           ["O3"; "NO2"; "Temperature"; "Humidity"] "PM10"
           example_missing_columns eq_refl H eq_refl).
Defined.

(** X4. Cleaning is idempotent: the cleaner run on its own result returns
    that result unchanged. *)
Theorem cleaner_idempotent (df t : DataFrame) :
  cleaner df = Ok t -> cleaner t = Ok t.
Proof.
  intros Hok. pose proof Hok as (Hcols & _ & Ht)%clean_in_order_Ok_inv.
  assert (has_columns numeric_columns t) as Hcols'.
  { rewrite Ht. unfold has_columns in *. eapply Forall_impl; [exact Hcols|].
    intros c Hc. unfold with_numeric. cbn [numeric].
    by apply alter_all_is_Some, alter_all_is_Some. }
  unfold cleaner. rewrite (clean_in_order_Ok _ _ _ Hcols' Hcols'). f_equal.
  destruct t as [st ts m]. unfold with_numeric. cbn [Station_ID Timestamp numeric].
  f_equal. apply map_eq. intros col.
  rewrite !alter_all_lookup by apply numeric_columns_NoDup.
  destruct (decide (col ∈ numeric_columns)) as [Hin|Hin]; [|done].
  destruct (cleaner_lookup df _ col Hok Hin) as (s & _ & Hcol).
  cbn [numeric] in Hcol. rewrite Hcol. cbn. f_equal.
  rewrite (impute_fixed (clamp (impute s))) by apply clamp_signed.
  apply clamp_fixed, clamp_signed.
Qed.

Lemma cleaner_idempotent_witness :
  exists t, cleaner example_raw = Ok t /\ cleaner t = Ok t.
Proof.
  eexists. split; [vm_compute; reflexivity|].
  apply (cleaner_idempotent example_raw). vm_compute; reflexivity.
Defined.

(** X5. What the cleaner does to a cell that was present: a reading above
    zero is kept as it is, any other present reading becomes 0. *)
Theorem cleaner_present_cell (df t : DataFrame) (col : string)
    (s : Pd.column) (i : nat) (x : float) :
  cleaner df = Ok t -> col ∈ numeric_columns ->
  numeric df !! col = Some s -> s !! i = Some x -> is_nan x = false ->
  exists s', numeric t !! col = Some s' /\
             s' !! i = Some (if ltb zero x then x else zero).
Proof.
  intros Hok Hin Hs Hi Hx.
  destruct (cleaner_lookup df t col Hok Hin) as (s0 & Hs0 & Ht).
  rewrite Hs in Hs0. injection Hs0 as <-.
  eexists. split; [exact Ht|].
  rewrite clamp_lookup. unfold impute. rewrite fillna_lookup, Hi. cbn.
  by rewrite Hx.
Qed.

Lemma cleaner_present_cell_witness :
  exists t, cleaner example_raw = Ok t /\
    exists s', numeric t !! "PM10" = Some s' /\ s' !! 0%nat = Some zero.
Proof.
  eexists. split; [vm_compute; reflexivity|].
  apply (cleaner_present_cell example_raw _ "PM10"
           [of_Z (-5); of_Z 0; of_Z 5; nan; of_Z 7] 0 (of_Z (-5))).
  - vm_compute; reflexivity.
  - right; by left.
  - reflexivity.
  - reflexivity.
  - reflexivity.
Defined.

(** ** The classifier on every input, and after the cleaner *)

Ltac pick_category_index :=
  (exists 0%nat + exists 1%nat + exists 2%nat + exists 3%nat + exists 4%nat
   + exists 5%nat).

(** X6. The classifier is monotone: a reading that is not above another
    one gets a category that is not later in the list of categories. *)
Theorem calculate_aqi_pm25_monotone (x y : float) :
  leb x y = true ->
  exists i j : nat,
    categories !! i = Some (calculate_aqi_pm25 x) /\
    categories !! j = Some (calculate_aqi_pm25 y) /\
    (i <= j)%nat.
Proof.
  intros Hxy. pose proof (fun c => leb_trans x y c Hxy) as T.
  unfold calculate_aqi_pm25.
  destruct (leb y f12_0) eqn:Y1; [rewrite (T _ Y1)|
  destruct (leb y f35_4) eqn:Y2; [rewrite (T _ Y2)|
  destruct (leb y f55_4) eqn:Y3; [rewrite (T _ Y3)|
  destruct (leb y f150_4) eqn:Y4; [rewrite (T _ Y4)|
  destruct (leb y f250_4) eqn:Y5; [rewrite (T _ Y5)|]]]]];
  clear T; repeat case_match;
  solve [pick_category_index; pick_category_index;
         (split; [reflexivity | split; [reflexivity | lia]])].
Qed.

Lemma calculate_aqi_pm25_monotone_witness :
  leb (of_Z 30) (of_Z 200) = true /\
  exists i j : nat,
    categories !! i = Some (calculate_aqi_pm25 (of_Z 30)) /\
    categories !! j = Some (calculate_aqi_pm25 (of_Z 200)) /\
    (i <= j)%nat.
Proof.
  split; [reflexivity|].
  apply (calculate_aqi_pm25_monotone (of_Z 30) (of_Z 200)). reflexivity.
Defined.

Lemma above_last_breakpoint (x : float) :
  leb x f250_4 = false <-> is_nan x = true \/ ltb f250_4 x = true.
Proof.
  destruct (is_nan x) eqn:Hx.
  - destruct x; try discriminate. split; [by left | done].
  - rewrite (ltb_negb_leb x f250_4 Hx eq_refl).
    destruct (leb x f250_4); cbn.
    + split; [done | by intros [?|?]].
    + split; [by right | done].
Qed.

(** The last branch is taken exactly when the last comparison fails. *)
Lemma last_branch_iff (x : float) :
  calculate_aqi_pm25 x = "Hazardous" <-> leb x f250_4 = false.
Proof.
  destruct breakpoints_ordered as (O1 & O2 & O3 & O4).
  pose proof (leb_mono x _ _ O4) as M4.
  pose proof (fun H => M4 (leb_mono x _ _ O3 H)) as M3.
  pose proof (fun H => M3 (leb_mono x _ _ O2 H)) as M2.
  pose proof (fun H => M2 (leb_mono x _ _ O1 H)) as M1.
  unfold calculate_aqi_pm25.
  destruct (leb x f12_0) eqn:E1; [rewrite (M1 eq_refl); by split|].
  destruct (leb x f35_4) eqn:E2; [rewrite (M2 eq_refl); by split|].
  destruct (leb x f55_4) eqn:E3; [rewrite (M3 eq_refl); by split|].
  destruct (leb x f150_4) eqn:E4; [rewrite (M4 eq_refl); by split|].
  by destruct (leb x f250_4).
Qed.

(** X7. "Hazardous" is the fall-through label: the classifier returns it
    exactly for the readings above 250.4 and for a missing reading (NaN),
    which fails every comparison. *)
Theorem calculate_aqi_pm25_hazardous (x : float) :
  calculate_aqi_pm25 x = "Hazardous" <->
  is_nan x = true \/ ltb f250_4 x = true.
Proof.
  split.
  - intros Hx. by apply above_last_breakpoint, last_branch_iff.
  - intros Hx. by apply last_branch_iff, above_last_breakpoint.
Qed.

Lemma clean_cell_max_zero (x : float) : clean_cell (Py.max zero x).
Proof. apply max_zero_nonneg. Qed.

(** X8. After the cleaner the category column is computed without error,
    has one label per PM2.5 cell, each label is one of the six, and a row
    is "Hazardous" only when its reading is above 250.4. *)
Theorem PM25_AQI_Category_cleaned (df t : DataFrame) :
  cleaner df = Ok t ->
  exists pm25 labels,
    numeric t !! "PM2.5" = Some pm25 /\
    PM25_AQI_Category t = Ok labels /\
    length labels = length pm25 /\
    forall i x, pm25 !! i = Some x ->
      labels !! i = Some (calculate_aqi_pm25 x) /\
      calculate_aqi_pm25 x ∈ categories /\
      (calculate_aqi_pm25 x = "Hazardous" -> ltb f250_4 x = true).
Proof.
  intros Hok.
  destruct (cleaner_lookup df t "PM2.5" Hok) as (s & _ & Ht); [by left|].
  exists (clamp (impute s)), (Pd.apply (clamp (impute s)) calculate_aqi_pm25).
  split; [done|]. split; [|split].
  - unfold PM25_AQI_Category, getitem. by rewrite Ht.
  - unfold Pd.apply. apply length_fmap.
  - intros i x Hi. split; [|split].
    + unfold Pd.apply. by rewrite list_lookup_fmap, Hi.
    + unfold calculate_aqi_pm25, categories. repeat case_match; set_solver.
    + intros [Hnan|Hgt]%last_branch_iff%above_last_breakpoint; [|done].
      rewrite clamp_lookup in Hi.
      destruct (impute s !! i) as [y|]; [|done]. cbn in Hi. injection Hi as <-.
      destruct (clean_cell_max_zero y) as [Hy _]. congruence.
Qed.

Lemma PM25_AQI_Category_cleaned_witness :
  exists t, cleaner example_raw = Ok t /\
    exists pm25 labels,
      numeric t !! "PM2.5" = Some pm25 /\
      PM25_AQI_Category t = Ok labels /\
      length labels = length pm25.
Proof.
  eexists. split; [vm_compute; reflexivity|].
  eassert (cleaner example_raw = Ok _) as Hok by (vm_compute; reflexivity).
  destruct (PM25_AQI_Category_cleaned example_raw _ Hok)
    as (pm25 & labels & H1 & H2 & H3 & _).
  exists pm25, labels. split; [exact H1|]. split; [exact H2 | exact H3].
Defined.

(** X9. A PM2.5 column without a single reading comes out of the cleaner
    as zeros, so every row of the table is classified "Good". *)
Theorem no_reading_classified_good (df t : DataFrame) (s : Pd.column) :
  cleaner df = Ok t ->
  numeric df !! "PM2.5" = Some s -> Pd.dropna s = [] ->
  PM25_AQI_Category t = Ok (replicate (length s) "Good").
Proof.
  intros Hok Hs Hnone.
  destruct (cleaner_lookup df t "PM2.5" Hok) as (s0 & Hs0 & Ht); [by left|].
  rewrite Hs in Hs0. injection Hs0 as <-.
  unfold PM25_AQI_Category, getitem. rewrite Ht. cbn. f_equal.
  rewrite (impute_no_observation _ Hnone).
  rewrite clamp_all_missing by by apply dropna_nil_iff.
  unfold Pd.apply. by rewrite fmap_replicate.
Qed.

Lemma no_reading_classified_good_witness :
  exists t, cleaner example_no_pm25 = Ok t /\
    Pd.dropna [nan; nan; nan] = [] /\
    PM25_AQI_Category t = Ok ["Good"; "Good"; "Good"].
Proof.
  eexists. split; [vm_compute; reflexivity|]. split; [reflexivity|].
  apply (no_reading_classified_good example_no_pm25 _ [nan; nan; nan]);
    vm_compute; reflexivity.
Defined.

(** ** Grouped means: what each group holds *)

Section GroupContents.
Context {K : Type} `{EqDecision K} `{KeyCmpLaws K}.

Lemma key_lt_irrefl (a : K) : ~ key_lt a a.
Proof. unfold key_lt. by rewrite key_cmp_refl. Qed.

Lemma sorted_keys_NoDup (ks : list K) : StronglySorted key_lt ks -> NoDup ks.
Proof.
  induction 1 as [|k ks _ IH Hall]; constructor; [|done].
  intros Hin. rewrite Forall_forall in Hall.
  by apply (key_lt_irrefl k), Hall.
Qed.

Lemma group_values_absent (k : K) (gs : list (K * Pd.column)) :
  k ∉ gs.*1 -> group_values k gs = [].
Proof.
  induction gs as [|[k0 vs] gs IH]; [done|]. cbn. intros Hk.
  apply not_elem_of_cons in Hk as [Hne Hk].
  rewrite decide_False by done. by apply IH.
Qed.

Lemma group_values_elem (k : K) (vs : Pd.column) (gs : list (K * Pd.column)) :
  NoDup gs.*1 -> (k, vs) ∈ gs -> group_values k gs = vs.
Proof.
  induction gs as [|[k0 vs0] gs IH]; cbn; [by intros _ ?%elem_of_nil|].
  intros [Hk0 Hnd]%NoDup_cons [Heq|Hin]%elem_of_cons.
  - injection Heq as -> ->. by rewrite decide_True.
  - rewrite decide_False; [by apply IH|].
    intros ->. apply Hk0, list_elem_of_fmap. by exists (k, vs).
Qed.

Lemma group_values_found (k : K) (gs : list (K * Pd.column)) :
  group_values k gs <> [] -> (k, group_values k gs) ∈ gs.
Proof.
  induction gs as [|[k0 vs0] gs IH]; cbn; [done|].
  destruct (decide (k0 = k)) as [->|Hne]; intros Hvs; [by left|].
  right. by apply IH.
Qed.

(** Inserting a row appends its value to the group of its key and leaves
    the other groups alone. *)
Lemma group_values_insert (k k' : K) (v : float) (gs : list (K * Pd.column)) :
  StronglySorted key_lt gs.*1 ->
  group_values k (Pd.group_insert k' v gs) =
    if decide (k' = k) then group_values k gs ++ [v] else group_values k gs.
Proof.
  induction gs as [|[k0 vs] gs IH]; cbn; intros Hs.
  - by destruct (decide (k' = k)).
  - apply StronglySorted_cons in Hs as [Hall Hs].
    destruct (Pd.key_cmp k' k0) eqn:Hc; cbn.
    + apply key_cmp_eq in Hc as ->.
      by destruct (decide (k0 = k)).
    + destruct (decide (k' = k)) as [->|Hne]; [|done].
      rewrite decide_False by (intros ->; by apply (key_lt_irrefl k)).
      rewrite group_values_absent; [done|].
      intros Hin. rewrite Forall_forall in Hall.
      apply (key_lt_irrefl k), (key_cmp_trans k k0 k); [done|]. by apply Hall.
    + rewrite (IH Hs).
      destruct (decide (k0 = k)) as [->|Hne]; [|done].
      rewrite decide_False; [done|].
      intros ->. by rewrite key_cmp_refl in Hc.
Qed.

Lemma groups_values_from (k : K) (keys : list K) (vals : Pd.column)
    (gs : list (K * Pd.column)) :
  StronglySorted key_lt gs.*1 ->
  group_values k (foldl (fun gs kv => Pd.group_insert kv.1 kv.2 gs) gs
                    (zip keys vals)) =
    group_values k gs ++ rows_of k keys vals.
Proof.
  revert vals gs. induction keys as [|k0 keys IH]; intros vals gs Hs.
  - cbn. by rewrite app_nil_r.
  - destruct vals as [|v vals]; [cbn; by rewrite app_nil_r|].
    cbn [zip zip_with foldl fst snd].
    rewrite IH by by apply group_insert_sorted.
    rewrite (group_values_insert _ _ _ _ Hs).
    unfold rows_of. cbn [fmap list_fmap Pd.select].
    destruct (decide (k0 = k)) as [->|Hne].
    + rewrite bool_decide_eq_true_2 by done. by rewrite <- app_assoc.
    + by rewrite bool_decide_eq_false_2 by done.
Qed.

(** The values of a group are the rows of its key, in row order. *)
Lemma groups_values (k : K) (keys : list K) (vals : Pd.column) :
  group_values k (Pd.groups keys vals) = rows_of k keys vals.
Proof. unfold Pd.groups. rewrite groups_values_from; [done|constructor]. Qed.

Lemma group_insert_nonempty (k : K) (v : float) (gs : list (K * Pd.column)) :
  Forall (fun g => g.2 <> []) gs ->
  Forall (fun g => g.2 <> []) (Pd.group_insert k v gs).
Proof.
  induction 1 as [|[k0 vs] gs Hvs Hgs IH]; cbn.
  - by repeat constructor.
  - destruct (Pd.key_cmp k k0); repeat constructor; try done.
    cbn. by destruct vs.
Qed.

Lemma groups_nonempty (keys : list K) (vals : Pd.column) :
  Forall (fun g => g.2 <> []) (Pd.groups keys vals).
Proof.
  unfold Pd.groups.
  assert (Forall (fun g : K * Pd.column => g.2 <> []) []) as Hnil by constructor.
  revert Hnil. generalize (@nil (K * Pd.column)).
  induction (zip keys vals) as [|[k v] kvs IH]; intros gs Hgs; [done|].
  cbn. by apply IH, group_insert_nonempty.
Qed.

Lemma groups_spec (k : K) (vs : Pd.column) (keys : list K) (vals : Pd.column) :
  (k, vs) ∈ Pd.groups keys vals <-> vs = rows_of k keys vals /\ vs <> [].
Proof.
  split.
  - intros Hin. split.
    + rewrite <- groups_values. symmetry.
      apply group_values_elem; [|done].
      apply sorted_keys_NoDup, groups_sorted.
    + pose proof (groups_nonempty keys vals) as Hne.
      rewrite Forall_forall in Hne. apply (Hne _ Hin).
  - intros [-> Hne]. rewrite <- groups_values in *.
    by apply group_values_found.
Qed.

Lemma rows_of_nonempty (k : K) (keys : list K) (vals : Pd.column) :
  length keys = length vals -> rows_of k keys vals <> [] <-> k ∈ keys.
Proof.
  unfold rows_of. revert vals.
  induction keys as [|k0 keys IH]; intros [|v vals]; try done.
  - cbn. intros _. split; [done|]. by intros ?%elem_of_nil.
  - cbn. intros [=Hlen]. rewrite elem_of_cons.
    destruct (decide (k0 = k)) as [->|Hne].
    + rewrite bool_decide_eq_true_2 by done. split; [by left|done].
    + rewrite bool_decide_eq_false_2 by done. rewrite (IH _ Hlen).
      split; [by right|]. by intros [->|?].
Qed.
End GroupContents.

Lemma groupby_mean_keys {K : Type} `{EqDecision K} `{KeyCmpLaws K}
    (keys : list K) (vals : Pd.column) (k : K) :
  length keys = length vals ->
  k ∈ (Pd.groupby_mean keys vals).*1 <-> k ∈ keys.
Proof.
  intros Hlen. unfold Pd.groupby_mean. rewrite <- list_fmap_compose.
  rewrite <- (rows_of_nonempty k keys vals Hlen), list_elem_of_fmap. split.
  - intros ([k0 vs] & -> & [Hvs Hne]%groups_spec). cbn. by rewrite <- Hvs.
  - intros Hne. exists (k, rows_of k keys vals). split; [done|].
    by apply groups_spec.
Qed.

(** X11. The per-station series has one entry per distinct station: its
    length is what [df["Station ID"].nunique()] reports. *)
Theorem station_means_count (df : DataFrame) (pm25 : Pd.column) :
  numeric df !! "PM2.5" = Some pm25 ->
  length (Station_ID df) = length pm25 ->
  exists s, avg_pm25_by_station df = Ok s /\ length s = unique_stations df.
Proof.
  intros Hcol Hlen. unfold avg_pm25_by_station, getitem. rewrite Hcol. cbn.
  eexists. split; [done|]. unfold unique_stations, nunique.
  rewrite <- (length_fmap fst). apply Permutation_length, NoDup_Permutation.
  - apply sorted_keys_NoDup, groupby_mean_sorted.
  - apply NoDup_remove_dups.
  - intros k. rewrite elem_of_remove_dups. by apply groupby_mean_keys.
Qed.

Lemma station_means_count_witness :
  exists s, avg_pm25_by_station example_two_days = Ok s /\
            length s = unique_stations example_two_days.
Proof.
  apply (station_means_count example_two_days
           [of_Z 12; of_Z 40; of_Z 50; of_Z 60; of_Z 48]); reflexivity.
Defined.

(** ** Station queries on a table with rows *)

Lemma leb_ninf (v : float) : leb v ninf = true -> v = ninf.
Proof. by destruct v as [s|[]| |[] m e]. Qed.

Lemma leb_pinf (v : float) : leb pinf v = true -> v = pinf.
Proof. by destruct v as [s|[]| |[] m e]. Qed.

Lemma all_na_false_elem {K : Type} (s : Pd.series K) :
  Pd.all_na s = false -> exists k v, (k, v) ∈ s /\ is_nan v = false.
Proof.
  unfold Pd.all_na. induction s as [|[k v] s IH]; [done|]. cbn.
  destruct (is_nan v) eqn:Hv; cbn.
  - intros (k' & v' & Hin & Hv')%IH. exists k', v'. split; [by right|done].
  - intros _. exists k, v. split; [by left|done].
Qed.

Section PresentExtreme.
Context {K : Type} `{KeyCmpLaws K}.
Implicit Types s : Pd.series K.

(** With a mean present, [idxmax] and [max] return a key of the series
    and a present value of the series that no present value exceeds; the
    key holds that value, unless the largest present value is -inf and a
    missing mean comes first. *)
Lemma idxmax_present s :
  s <> [] -> Pd.all_na s = false -> StronglySorted key_lt s.*1 ->
  exists k v,
    Pd.idxmax s = Ok (Some k) /\ Pd.max s = v /\ k ∈ s.*1 /\
    is_nan v = false /\ (exists k1, (k1, v) ∈ s) /\
    (forall k' v', (k', v') ∈ s -> is_nan v' = false -> leb v' v = true) /\
    ((k, v) ∈ s \/ (v = ninf /\ (k, nan) ∈ s)).
Proof.
  intros Hne Hna Hsorted.
  destruct (idxmax_filled s Hne Hna Hsorted) as (k & v0 & Hidx & Hin & Hmax & Hle & _).
  destruct (all_na_false_elem s Hna) as (k1 & v1 & Hin1 & Hv1).
  pose proof (Hle _ _ Hin1) as Hle1. unfold Pd.fill_ninf in Hle1 at 1.
  rewrite Hv1 in Hle1.
  exists k, (Pd.max s). split_and!; [done..| | | | |].
  - apply list_elem_of_fmap. by exists (k, v0).
  - apply (leb_not_nan _ _ Hle1).
  - rewrite Hmax in *. unfold Pd.fill_ninf in *.
    destruct (is_nan v0) eqn:Hv0; [|by exists k].
    exists k1. by rewrite <- (leb_ninf _ Hle1).
  - intros k' v' Hin' Hv'. pose proof (Hle _ _ Hin') as Hle'.
    unfold Pd.fill_ninf in Hle' at 1. by rewrite Hv' in Hle'.
  - rewrite Hmax. unfold Pd.fill_ninf. destruct (is_nan v0) eqn:Hv0; [|by left].
    right. split; [done|]. by destruct v0.
Qed.

Lemma idxmin_present s :
  s <> [] -> Pd.all_na s = false -> StronglySorted key_lt s.*1 ->
  exists k v,
    Pd.idxmin s = Ok (Some k) /\ Pd.min s = v /\ k ∈ s.*1 /\
    is_nan v = false /\ (exists k1, (k1, v) ∈ s) /\
    (forall k' v', (k', v') ∈ s -> is_nan v' = false -> leb v v' = true) /\
    ((k, v) ∈ s \/ (v = pinf /\ (k, nan) ∈ s)).
Proof.
  intros Hne Hna Hsorted.
  destruct (idxmin_filled s Hne Hna Hsorted) as (k & v0 & Hidx & Hin & Hmin & Hle & _).
  destruct (all_na_false_elem s Hna) as (k1 & v1 & Hin1 & Hv1).
  pose proof (Hle _ _ Hin1) as Hle1. unfold Pd.fill_pinf in Hle1 at 1.
  rewrite Hv1 in Hle1.
  exists k, (Pd.min s). split_and!; [done..| | | | |].
  - apply list_elem_of_fmap. by exists (k, v0).
  - apply (leb_not_nan _ _ Hle1).
  - rewrite Hmin in *. unfold Pd.fill_pinf in *.
    destruct (is_nan v0) eqn:Hv0; [|by exists k].
    exists k1. by rewrite <- (leb_pinf _ Hle1).
  - intros k' v' Hin' Hv'. pose proof (Hle _ _ Hin') as Hle'.
    unfold Pd.fill_pinf in Hle' at 1. by rewrite Hv' in Hle'.
  - rewrite Hmin. unfold Pd.fill_pinf. destruct (is_nan v0) eqn:Hv0; [|by left].
    right. split; [done|]. by destruct v0.
Qed.
End PresentExtreme.

Lemma station_means_nonempty (keys : list string) (vals : Pd.column) :
  length keys = length vals -> keys <> [] -> Pd.groupby_mean keys vals <> [].
Proof.
  intros Hlen Hne Hnil. destruct keys as [|k0 ks]; [done|].
  assert (k0 ∈ (Pd.groupby_mean (k0 :: ks) vals).*1) as Hk0
    by (apply groupby_mean_keys; [done|by left]).
  rewrite Hnil in Hk0. by apply elem_of_nil in Hk0.
Qed.

(** X12. On a table with at least one row the PM2.5 station query does
    not raise. When the mean of every station is missing, the station and
    the value returned are missing (NaN). Otherwise the query returns a
    station of the table and a value that is the mean of some station, is
    present, and is not exceeded by any present mean; the station
    returned holds that value, unless the value is -inf and the station's
    own mean is missing. *)
Theorem highest_pm25_station_spec (df : DataFrame) (pm25 : Pd.column) :
  numeric df !! "PM2.5" = Some pm25 ->
  length (Station_ID df) = length pm25 -> Station_ID df <> [] ->
  exists s,
    avg_pm25_by_station df = Ok s /\ s <> [] /\
    (Pd.all_na s = true ->
     highest_pm25_station df = Ok None /\ highest_pm25_value df = Ok nan) /\
    (Pd.all_na s = false ->
     exists k v,
       highest_pm25_station df = Ok (Some k) /\ highest_pm25_value df = Ok v /\
       k ∈ Station_ID df /\ is_nan v = false /\ (exists k1, (k1, v) ∈ s) /\
       (forall k' v', (k', v') ∈ s -> is_nan v' = false -> leb v' v = true) /\
       ((k, v) ∈ s \/ (v = ninf /\ (k, nan) ∈ s))).
Proof.
  intros Hcol Hlen Hrows.
  pose proof (station_means_nonempty _ _ Hlen Hrows) as Hne.
  exists (Pd.groupby_mean (Station_ID df) pm25).
  unfold highest_pm25_station, highest_pm25_value, avg_pm25_by_station, getitem.
  rewrite Hcol. cbn [mbind result_bind]. split_and!; [done..| |].
  - intros Hna. by destruct (idxmax_all_na _ Hne Hna) as (-> & -> & _).
  - intros Hna.
    destruct (idxmax_present _ Hne Hna (groupby_mean_sorted _ _))
      as (k & v & -> & -> & Hk & Hrest).
    exists k, v.
    split; [done|]. split; [done|]. split; [|exact Hrest].
    by apply (groupby_mean_keys _ pm25).
Qed.

Lemma highest_pm25_station_spec_witness :
  exists k v,
    highest_pm25_station example_two_days = Ok (Some k) /\
    highest_pm25_value example_two_days = Ok v /\
    k = "S003" /\ v = div (of_Z 158) (of_Z 3).
Proof.
  destruct (highest_pm25_station_spec example_two_days
              [of_Z 12; of_Z 40; of_Z 50; of_Z 60; of_Z 48])
    as (s & Hs & _ & _ & Hpresent); [reflexivity | reflexivity | discriminate |].
  vm_compute in Hs. injection Hs as <-.
  destruct Hpresent as (k & v & Hk & Hv & _); [vm_compute; reflexivity|].
  exists k, v. split; [exact Hk|]. split; [exact Hv|].
  vm_compute in Hk, Hv. injection Hk as <-. injection Hv as <-.
  split; [reflexivity | vm_compute; reflexivity].
Defined.

(** X13. On a table with at least one row the O3 station query does not
    raise. When the mean of every station is missing, the station and the
    value returned are missing (NaN). Otherwise the query returns a
    station of the table and a value that is the mean of some station, is
    present, and is not above any present mean; the station returned
    holds that value, unless the value is +inf and the station's own mean
    is missing. *)
Theorem lowest_o3_station_spec (df : DataFrame) (o3 : Pd.column) :
  numeric df !! "O3" = Some o3 ->
  length (Station_ID df) = length o3 -> Station_ID df <> [] ->
  exists s,
    avg_o3_by_station df = Ok s /\ s <> [] /\
    (Pd.all_na s = true ->
     lowest_o3_station df = Ok None /\ lowest_o3_value df = Ok nan) /\
    (Pd.all_na s = false ->
     exists k v,
       lowest_o3_station df = Ok (Some k) /\ lowest_o3_value df = Ok v /\
       k ∈ Station_ID df /\ is_nan v = false /\ (exists k1, (k1, v) ∈ s) /\
       (forall k' v', (k', v') ∈ s -> is_nan v' = false -> leb v v' = true) /\
       ((k, v) ∈ s \/ (v = pinf /\ (k, nan) ∈ s))).
Proof.
  intros Hcol Hlen Hrows.
  pose proof (station_means_nonempty _ _ Hlen Hrows) as Hne.
  exists (Pd.groupby_mean (Station_ID df) o3).
  unfold lowest_o3_station, lowest_o3_value, avg_o3_by_station, getitem.
  rewrite Hcol. cbn [mbind result_bind]. split_and!; [done..| |].
  - intros Hna. by destruct (idxmax_all_na _ Hne Hna) as (_ & _ & -> & ->).
  - intros Hna.
    destruct (idxmin_present _ Hne Hna (groupby_mean_sorted _ _))
      as (k & v & -> & -> & Hk & Hrest).
    exists k, v.
    split; [done|]. split; [done|]. split; [|exact Hrest].
    by apply (groupby_mean_keys _ o3).
Qed.

(** On [example_overflow] the station returned is A, whose own mean is
    missing, and the value is +inf. *)
Lemma lowest_o3_station_spec_witness :
  exists k v,
    lowest_o3_station example_overflow = Ok (Some k) /\
    lowest_o3_value example_overflow = Ok v /\
    k = "A" /\ v = pinf.
Proof.
  destruct (lowest_o3_station_spec example_overflow
              [f1e308; f1e308; f1e308; f1e308; f1e308; f1e308; f1e308])
    as (s & Hs & _ & _ & Hpresent); [reflexivity | reflexivity | discriminate |].
  vm_compute in Hs. injection Hs as <-.
  destruct Hpresent as (k & v & Hk & Hv & _); [vm_compute; reflexivity|].
  exists k, v. split; [exact Hk|]. split; [exact Hv|].
  vm_compute in Hk, Hv. injection Hk as <-. injection Hv as <-.
  split; reflexivity.
Defined.

(** ** Days above the threshold *)

Lemma StronglySorted_sublist {A : Type} (R : relation A) (l1 l2 : list A) :
  l1 `sublist_of` l2 -> StronglySorted R l2 -> StronglySorted R l1.
Proof.
  induction 1 as [|x l1 l2 Hsub IH|x l1 l2 Hsub IH]; [done|..];
    intros [Hall Hs]%StronglySorted_cons.
  - constructor; [by apply IH|]. rewrite Forall_forall in *.
    intros y Hy. by eapply Hall, elem_of_sublist.
  - by apply IH.
Qed.

Lemma StronglySorted_weaken {A : Type} (R R' : relation A) (l : list A) :
  (forall a b, R a b -> R' a b) -> StronglySorted R l -> StronglySorted R' l.
Proof.
  intros HR. induction 1 as [|x l _ IH Hall]; constructor; [done|].
  eapply Forall_impl; [exact Hall|]. apply HR.
Qed.

(** X15. The days reported for station S003 are exactly the days whose
    mean is above 50 (a mean equal to 50, or a missing mean, is never
    reported), in the order of the daily series, which is the order of the
    dates. *)
Theorem days_exceeding_threshold_spec (df : DataFrame) (daily : Pd.series Z) :
  daily_avg_pm25_s003 df = Ok daily ->
  exists days,
    days_exceeding_threshold df = Ok days /\
    days `sublist_of` daily /\
    StronglySorted Z.lt days.*1 /\
    (forall kv, kv ∈ days <-> kv ∈ daily /\ ltb threshold kv.2 = true) /\
    (forall kv, kv ∈ days -> is_nan kv.2 = false /\ leb kv.2 threshold = false).
Proof.
  intros Hdaily. exists (Pd.filter_gt daily threshold).
  unfold days_exceeding_threshold. rewrite Hdaily. split; [done|].
  assert (Pd.filter_gt daily threshold `sublist_of` daily) as Hsub
    by apply sublist_filter.
  split; [done|]. split; [|split].
  - apply StronglySorted_sublist with daily.*1; [by apply fmap_sublist|].
    unfold daily_avg_pm25_s003 in Hdaily.
    destruct (getitem df "PM2.5") as [s|]; [|done]. cbn in Hdaily.
    injection Hdaily as <-.
    pose proof (groupby_mean_sorted (K := Z)
      (Pd.date <$> Pd.select (station_mask df specific_station_id) (Timestamp df))
      (Pd.select (station_mask df specific_station_id) s)) as Hs.
    eapply StronglySorted_weaken; [|exact Hs].
    intros a b. unfold key_lt, Pd.key_cmp, Pd.Z_cmp. apply Z.compare_lt_iff.
  - intros kv. unfold Pd.filter_gt. rewrite list_elem_of_filter.
    unfold gtb. tauto.
  - intros kv Hkv. unfold Pd.filter_gt in Hkv.
    apply list_elem_of_filter in Hkv as [Hgt _]. unfold gtb in Hgt.
    split; [apply (ltb_not_nan _ _ Hgt) | by apply ltb_leb_false].
Qed.

Lemma days_exceeding_threshold_spec_witness :
  daily_avg_pm25_s003 example_two_days = Ok [(0, of_Z 55); (1, of_Z 48)] /\
  exists days,
    days_exceeding_threshold example_two_days = Ok days /\
    days `sublist_of` [(0, of_Z 55); (1, of_Z 48)].
Proof.
  split; [reflexivity|].
  destruct (days_exceeding_threshold_spec example_two_days
              [(0, of_Z 55); (1, of_Z 48)] eq_refl) as (days & H1 & H2 & _).
  by exists days.
Defined.

(** ** Row selection by a boolean mask *)

Lemma select_zip_filter {A B : Type} (P : A -> Prop) `{forall x, Decision (P x)}
    (xs : list A) (ys : list B) :
  zip (Pd.select ((fun x => bool_decide (P x)) <$> xs) xs)
      (Pd.select ((fun x => bool_decide (P x)) <$> xs) ys) =
  filter (fun r => P r.1) (zip xs ys).
Proof.
  revert ys. induction xs as [|x xs IH]; intros [|y ys]; try done.
  - cbn. destruct (bool_decide (P x)); cbn; [done|].
    by destruct (Pd.select _ xs).
  - cbn [fmap list_fmap Pd.select zip zip_with]. rewrite filter_cons. cbn [fst].
    destruct (decide (P x)) as [HP|HP].
    + rewrite bool_decide_eq_true_2 by done. cbn. f_equal. apply IH.
    + rewrite bool_decide_eq_false_2 by done. apply IH.
Qed.

(** X16. Selecting the rows of one station column by column agrees row by
    row: the selected station cells paired with the selected cells of any
    column are exactly the rows of the table with that station, in their
    order ([df[df["Station ID"] == id]]). *)
Theorem station_rows_selected (df : DataFrame) (id : string) (col : Pd.column) :
  zip (Pd.select (station_mask df id) (Station_ID df))
      (Pd.select (station_mask df id) col) =
  filter (fun r => r.1 = id) (zip (Station_ID df) col).
Proof.
  unfold station_mask.
  exact (select_zip_filter (fun s => s = id) (Station_ID df) col).
Qed.

(** ** The hourly series of the first day *)

Lemma foldl_min_spec (h : Z) (hs : list Z) :
  foldl Z.min h hs ∈ h :: hs /\ Forall (fun x => foldl Z.min h hs <= x) (h :: hs).
Proof.
  revert h. induction hs as [|x hs IH]; intros h; cbn.
  - split; [by left|]. by repeat constructor.
  - destruct (IH (Z.min h x)) as [Hin Hall].
    apply Forall_cons in Hall as [Hm Hall]. split.
    + apply elem_of_cons in Hin as [->|Hin]; [|by do 2 right].
      destruct (Z.min_spec h x) as [[_ ->]|[_ ->]]; [by left|right; by left].
    + repeat constructor; [lia..|done].
Qed.

Lemma foldl_max_spec (h : Z) (hs : list Z) :
  foldl Z.max h hs ∈ h :: hs /\ Forall (fun x => x <= foldl Z.max h hs) (h :: hs).
Proof.
  revert h. induction hs as [|x hs IH]; intros h; cbn.
  - split; [by left|]. by repeat constructor.
  - destruct (IH (Z.max h x)) as [Hin Hall].
    apply Forall_cons in Hall as [Hm Hall]. split.
    + apply elem_of_cons in Hin as [->|Hin]; [|by do 2 right].
      destruct (Z.max_spec h x) as [[_ ->]|[_ ->]]; [right; by left|by left].
    + repeat constructor; [lia..|done].
Qed.

Lemma select_and_mask {A : Type} (P : A -> Prop) `{forall x, Decision (P x)}
    (m : list bool) (xs : list A) :
  Forall P (Pd.select (zip_with andb m ((fun x => bool_decide (P x)) <$> xs)) xs).
Proof.
  revert m. induction xs as [|x xs IH]; intros [|b m]; try done.
  cbn. destruct b; cbn; [|by apply IH].
  destruct (decide (P x)) as [HP|HP].
  - rewrite bool_decide_eq_true_2 by done. constructor; [done|apply IH].
  - rewrite bool_decide_eq_false_2 by done. apply IH.
Qed.

Lemma hour_labels_sorted (m n : Z) :
  StronglySorted Z.lt ((fun b => b * 3600) <$> seqZ m n).
Proof.
  destruct (decide (n <= 0)) as [Hn|Hn]; [rewrite seqZ_nil by done; constructor|].
  rewrite <- (Z2Nat.id n) by lia. generalize (Z.to_nat n). clear n Hn.
  intros k. revert m. induction k as [|k IH]; intros m; [constructor|].
  rewrite seqZ_cons by lia. replace (Z.pred (Z.of_nat (S k))) with (Z.of_nat k) by lia.
  cbn. constructor; [apply IH|]. apply Forall_fmap, Forall_forall.
  intros b [Hb _]%elem_of_seqZ. cbn. lia.
Qed.

Lemma hour_bin_of_date (t d : Z) :
  Pd.date t = d -> 24 * d <= Pd.hour_bin t <= 24 * d + 23.
Proof. unfold Pd.date, Pd.hour_bin. intros <-. Z.div_mod_to_equations. lia. Qed.

(** X17. The hourly PM2.5 series of station S001 covers one calendar day:
    it has at most 24 entries, labelled by increasing full hours of the
    first date of the table, and every selected row falls into one of its
    bins. *)
Theorem hourly_pm25_s001_shape (df : DataFrame) (s : Pd.series Z) :
  hourly_pm25_s001 df = Ok s ->
  (length s <= 24)%nat /\
  StronglySorted Z.lt s.*1 /\
  (forall tl v, (tl, v) ∈ s ->
     Some (Pd.date tl) = first_date df /\ tl = 3600 * Pd.hour_bin tl) /\
  (forall t, t ∈ Pd.select (station_s001_first_day_mask df) (Timestamp df) ->
     3600 * Pd.hour_bin t ∈ s.*1).
Proof.
  unfold hourly_pm25_s001. destruct (getitem df "PM2.5") as [c|]; [|done].
  cbn. intros [= <-].
  assert (Forall (fun t => Some (Pd.date t) = first_date df)
            (Pd.select (station_s001_first_day_mask df) (Timestamp df))) as Hday
    by exact (select_and_mask (fun t => Some (Pd.date t) = first_date df)
                (station_mask df "S001") (Timestamp df)).
  unfold Pd.resample_H_mean.
  destruct (Pd.select (station_s001_first_day_mask df) (Timestamp df))
    as [|t0 ts] eqn:Hsel.
  { cbn. split; [lia|]. split; [constructor|].
    split; [by intros ?? ?%elem_of_nil | by intros ? ?%elem_of_nil]. }
  cbn [fmap list_fmap].
  destruct (first_date df) as [d|] eqn:Hd;
    [|apply Forall_cons in Hday as [? _]; done].
  assert (Forall (fun b => 24 * d <= b <= 24 * d + 23)
            (Pd.hour_bin t0 :: (Pd.hour_bin <$> ts))) as Hbins.
  { rewrite <- fmap_cons. apply Forall_fmap. eapply Forall_impl; [exact Hday|].
    cbn. intros t [= Ht]. by apply hour_bin_of_date. }
  destruct (foldl_min_spec (Pd.hour_bin t0) (Pd.hour_bin <$> ts)) as [Hlo_in Hlo].
  destruct (foldl_max_spec (Pd.hour_bin t0) (Pd.hour_bin <$> ts)) as [Hhi_in Hhi].
  set (lo := foldl Z.min (Pd.hour_bin t0) (Pd.hour_bin <$> ts)) in *.
  set (hi := foldl Z.max (Pd.hour_bin t0) (Pd.hour_bin <$> ts)) in *.
  rewrite Forall_forall in Hbins, Hlo, Hhi.
  pose proof (Hbins _ Hlo_in) as Hlo_d. pose proof (Hbins _ Hhi_in) as Hhi_d.
  rewrite <- list_fmap_compose. split; [|split; [|split]].
  - rewrite length_fmap, length_seqZ. lia.
  - apply hour_labels_sorted.
  - intros tl v (b & [= -> _] & [Hb1 Hb2]%elem_of_seqZ)%list_elem_of_fmap.
    unfold Pd.date, Pd.hour_bin in *.
    split; [f_equal|]; Z.div_mod_to_equations; lia.
  - intros t Ht. apply list_elem_of_fmap. exists (Pd.hour_bin t).
    split; [cbn; lia|]. apply elem_of_seqZ.
    assert (Pd.hour_bin t ∈ Pd.hour_bin t0 :: (Pd.hour_bin <$> ts)) as Hin.
    { rewrite <- fmap_cons. apply list_elem_of_fmap. by exists t. }
    pose proof (Hlo _ Hin). pose proof (Hhi _ Hin). lia.
Qed.

Lemma hourly_pm25_s001_shape_witness :
  exists s, hourly_pm25_s001 example_two_days = Ok s /\
    (length s <= 24)%nat /\ StronglySorted Z.lt s.*1.
Proof.
  eexists. split; [vm_compute; reflexivity|].
  eassert (hourly_pm25_s001 example_two_days = Ok _) as Hok
    by (vm_compute; reflexivity).
  destruct (hourly_pm25_s001_shape example_two_days _ Hok) as (H1 & H2 & _).
  split; [exact H1 | exact H2].
Defined.

(** ** The peak hour *)

Lemma hour_range (t : Z) : 0 <= Pd.hour t <= 23.
Proof. unfold Pd.hour. Z.div_mod_to_equations. lia. Qed.

(** Over at least one row the hourly series has at least one bin, and
    its labels increase. *)
Lemma resample_H_mean_labels (ts : list Z) (vals : Pd.column) :
  ts <> [] ->
  Pd.resample_H_mean ts vals <> [] /\
  StronglySorted key_lt (Pd.resample_H_mean ts vals).*1.
Proof.
  destruct ts as [|t0 ts]; [done|]. intros _. unfold Pd.resample_H_mean.
  rewrite !(fmap_cons Pd.hour_bin). cbv beta iota zeta.
  destruct (foldl_min_spec (Pd.hour_bin t0) (Pd.hour_bin <$> ts)) as [_ Hlo].
  destruct (foldl_max_spec (Pd.hour_bin t0) (Pd.hour_bin <$> ts)) as [_ Hhi].
  apply Forall_cons in Hlo as [Hlo _]. apply Forall_cons in Hhi as [Hhi _].
  set (lo := foldl Z.min (Pd.hour_bin t0) (Pd.hour_bin <$> ts)) in *.
  set (hi := foldl Z.max (Pd.hour_bin t0) (Pd.hour_bin <$> ts)) in *.
  split.
  - rewrite seqZ_cons by lia. done.
  - rewrite <- list_fmap_compose.
    apply (StronglySorted_weaken Z.lt); [|apply hour_labels_sorted].
    intros a b Hab. exact Hab.
Qed.

(** X18. On a table with a row of station S001 on the first date the
    peak-hour query does not raise. When the mean of every hour is
    missing, the peak hour and the peak value are missing (NaN).
    Otherwise the query returns an hour of the day between 0 and 23, the
    hour of a label of the hourly series, and a value that is the mean of
    some hour, is present, and is not exceeded by any present hourly
    mean; the hour returned holds that value, unless the value is -inf
    and the mean of that hour is missing. *)
Theorem peak_hour_pm25_spec (df : DataFrame) (pm25 : Pd.column) :
  numeric df !! "PM2.5" = Some pm25 ->
  Pd.select (station_s001_first_day_mask df) (Timestamp df) <> [] ->
  exists s,
    hourly_pm25_s001 df = Ok s /\ s <> [] /\
    (Pd.all_na s = true ->
     peak_hour_pm25 df = Ok None /\ peak_pm25_value df = Ok nan) /\
    (Pd.all_na s = false ->
     exists tl v,
       peak_hour_pm25 df = Ok (Some (Pd.hour tl)) /\ 0 <= Pd.hour tl <= 23 /\
       peak_pm25_value df = Ok v /\ is_nan v = false /\
       (exists tl1, (tl1, v) ∈ s) /\
       (forall tl' v', (tl', v') ∈ s -> is_nan v' = false -> leb v' v = true) /\
       ((tl, v) ∈ s \/ (v = ninf /\ (tl, nan) ∈ s))).
Proof.
  intros Hcol Hrows.
  destruct (resample_H_mean_labels _
              (Pd.select (station_s001_first_day_mask df) pm25) Hrows)
    as [Hne Hsorted].
  eexists. unfold peak_hour_pm25, peak_pm25_value, hourly_pm25_s001, getitem.
  rewrite Hcol. cbn [mbind result_bind]. split_and!; [done..| |].
  - intros Hna. by destruct (idxmax_all_na _ Hne Hna) as (-> & -> & _).
  - intros Hna.
    destruct (idxmax_present _ Hne Hna Hsorted) as (tl & v & -> & -> & _ & Hrest).
    exists tl, v.
    split; [done|]. split; [apply hour_range|]. split; [done|]. exact Hrest.
Qed.

(** On [example_two_days] the peak is 40, in hour 1; on
    [example_one_hour], three readings of 1e308 in one hour, the hourly
    mean is missing and so are the peak hour and the peak value. *)
Lemma peak_hour_pm25_spec_witness :
  (exists h v,
     peak_hour_pm25 example_two_days = Ok (Some h) /\
     peak_pm25_value example_two_days = Ok v /\ h = 1 /\ v = of_Z 40) /\
  peak_hour_pm25 example_one_hour = Ok None /\
  peak_pm25_value example_one_hour = Ok nan.
Proof.
  split.
  - destruct (peak_hour_pm25_spec example_two_days
                [of_Z 12; of_Z 40; of_Z 50; of_Z 60; of_Z 48])
      as (s & Hs & _ & _ & Hpresent); [reflexivity | vm_compute; discriminate |].
    vm_compute in Hs. injection Hs as <-.
    destruct Hpresent as (tl & v & Hh & _ & Hv & _); [vm_compute; reflexivity|].
    exists (Pd.hour tl), v. split; [exact Hh|]. split; [exact Hv|].
    vm_compute in Hh, Hv. injection Hh as Hh. injection Hv as <-.
    split; [|vm_compute; reflexivity].
    symmetry. exact Hh.
  - destruct (peak_hour_pm25_spec example_one_hour [f1e308; f1e308; f1e308])
      as (s & Hs & _ & Hmissing & _); [reflexivity | vm_compute; discriminate |].
    vm_compute in Hs. injection Hs as <-.
    apply Hmissing. vm_compute. reflexivity.
Defined.

(** ** The columns of the statistics section *)

(** [df[cols]] returns exactly the asked columns, in the order asked. *)
Lemma getitems_Ok (df : DataFrame) (cols : list string) (cs : list Pd.column) :
  getitems df cols = Ok cs <->
  Forall2 (fun c s => numeric df !! c = Some s) cols cs.
Proof.
  revert cs. induction cols as [|c cols IH]; intros cs; cbn [getitems].
  - split; [intros [= <-]; constructor | by intros ->%Forall2_nil_inv_l].
  - unfold getitem. destruct (numeric df !! c) as [s|] eqn:Hs; cbn.
    + destruct (getitems df cols) as [ss|e] eqn:Hss; cbn.
      * split.
        -- intros [= <-]. constructor; [done|]. by apply IH.
        -- intros (s' & ss' & Hs' & Hss' & ->)%Forall2_cons_inv_l.
           rewrite Hs in Hs'. injection Hs' as <-.
           apply IH in Hss'. by injection Hss' as <-.
      * split; [done|].
        intros (s' & ss' & _ & Hss' & ->)%Forall2_cons_inv_l.
        by apply IH in Hss'.
    + split; [done|].
      intros (s' & ss' & Hs' & _ & ->)%Forall2_cons_inv_l.
      by rewrite Hs in Hs'.
Qed.

Lemma getitems_cleaned (df t : DataFrame) (cols : list string) :
  cleaner df = Ok t -> Forall (fun c => c ∈ numeric_columns) cols ->
  exists cs, getitems t cols = Ok cs /\ Forall (Forall clean_cell) cs.
Proof.
  intros Hok. induction 1 as [|c cols Hc _ (cs & Hcs & Hall)].
  - exists []. by split.
  - destruct (cleaner_lookup df t c Hok Hc) as (s & _ & Ht).
    exists (clamp (impute s) :: cs). split.
    + apply getitems_Ok. constructor; [done|]. by apply getitems_Ok.
    + constructor; [|done]. unfold clamp, Pd.apply.
      apply Forall_fmap, Forall_forall. intros x _. apply clean_cell_max_zero.
Qed.

(** X19. After the cleaner, both column selections of the statistics
    section succeed: the six columns that are correlated come back in the
    order listed, the four pollutant columns that are described are the
    first four of them, and no cell of any of them is missing or below
    zero. *)
Theorem statistics_columns_cleaned (df t : DataFrame) :
  cleaner df = Ok t ->
  exists cs,
    getitems t correlation_cols = Ok cs /\
    getitems t pollutants = Ok (take 4 cs) /\
    Forall2 (fun c s => numeric t !! c = Some s) numeric_columns cs /\
    Forall (Forall clean_cell) cs.
Proof.
  intros Hok.
  destruct (getitems_cleaned df t correlation_cols Hok) as (cs & Hcs & Hall).
  { by apply Forall_forall. }
  exists cs. pose proof Hcs as Hsel%getitems_Ok. split_and!; try done.
  apply getitems_Ok.
  change pollutants with (take 4 correlation_cols).
  by apply Forall2_take.
Qed.

Lemma statistics_columns_cleaned_witness :
  exists t, cleaner example_raw = Ok t /\
    exists cs,
      getitems t correlation_cols = Ok cs /\
      getitems t pollutants = Ok (take 4 cs) /\
      Forall2 (fun c s => numeric t !! c = Some s) numeric_columns cs /\
      Forall (Forall clean_cell) cs.
Proof.
  eassert (cleaner example_raw = Ok _) as Hok by (vm_compute; reflexivity).
  eexists. split; [exact Hok|].
  exact (statistics_columns_cleaned example_raw _ Hok).
Defined.

(** ** The correlation matrix *)

(** *** Zeros and NaN under the operations of the pass *)











(** *** One pass over a constant column *)








(** *** The diagonal *)



(** *** The matrix *)





